(** * A shallow embedding of the LlamaIndex demo scripts

    The repository holds three Python scripts ([llama_intro.py], [test.py],
    [test_gemini.py]) that glue a credential loader, a document reader, a
    vector index and a retriever query engine together.  The scripts are
    embedded as functions of a state-and-exception monad over an explicit
    world: the process environment, the [.env] file, the set of existing
    paths, the process-wide [Settings.llm], the opaque state of the
    third-party collaborators, and the chronological trace of everything the
    script logged, printed or asked of a collaborator. *)

From Stdlib Require Import QArith.
From stdpp Require Import gmap strings list.

Local Open Scope string_scope.
Set Warnings "-register-all".

(** ** Python exceptions *)

(** The classes of [Exception] that the scripts raise or that a
    collaborator may raise, with Python's built-in inheritance. *)
Inductive exn_class :=
| Exception
| ValueError
| UnicodeError
| RuntimeError
| NotImplementedError
| OSError
| FileNotFoundError
| PermissionError
| ConnectionError.

Definition base_class (c : exn_class) : option exn_class :=
  match c with
  | Exception => None
  | ValueError | RuntimeError | OSError => Some Exception
  | UnicodeError => Some ValueError
  | NotImplementedError => Some RuntimeError
  | FileNotFoundError | PermissionError | ConnectionError => Some OSError
  end.

Definition exn_class_eqb (c d : exn_class) : bool :=
  match c, d with
  | Exception, Exception | ValueError, ValueError
  | UnicodeError, UnicodeError | RuntimeError, RuntimeError
  | NotImplementedError, NotImplementedError | OSError, OSError
  | FileNotFoundError, FileNotFoundError
  | PermissionError, PermissionError
  | ConnectionError, ConnectionError => true
  | _, _ => false
  end.

(** [issubclass c d]; the hierarchy above has depth three. *)
Fixpoint issubclass_fuel (n : nat) (c d : exn_class) : bool :=
  exn_class_eqb c d ||
  match n, base_class c with
  | S n', Some b => issubclass_fuel n' b d
  | _, _ => false
  end.

Definition issubclass : exn_class → exn_class → bool := issubclass_fuel 3.

(** An exception object: its class, [str(e)], and [e.__cause__] as set by
    [raise ... from ...]. *)
Inductive exn := mk_exn {
  exn_cls : exn_class;
  exn_str : string;
  exn_cause : option exn
}.

Definition isinstance (e : exn) (c : exn_class) : bool :=
  issubclass (exn_cls e) c.

(** [C(msg)] and [C(msg)] raised [from cause]. *)
Definition new_exn (c : exn_class) (msg : string) : exn := mk_exn c msg None.
Definition from_cause (e cause : exn) : exn :=
  mk_exn (exn_cls e) (exn_str e) (Some cause).

(** ** Data model *)

Record Document := {
  doc_id : string;
  doc_text : string;
  doc_metadata : list (string * string)
}.

Definition vector := list Q.

Record Chunk := {
  chunk_text : string;
  chunk_doc : string;
  chunk_embedding : vector
}.

(** The index is the in-memory collection of embedded chunks. *)
Definition Index := list Chunk.

Record NodeWithScore := {
  node : Chunk;
  score : Q
}.

Record Response := {
  response_text : string;
  source_nodes : list NodeWithScore
}.

Inductive ResponseMode := REFINE | COMPACT | TREE_SUMMARIZE | ACCUMULATE.

(** Keyword arguments given to the [OpenAI] constructor. *)
Record OpenAI_kwargs := {
  kw_temperature : option Q;
  kw_model : string;
  kw_openai_api_key : option string
}.

(** ** The trace *)

Inductive level := INFO | WARNING | ERROR | CRITICAL.

Inductive log_arg := AStr (s : string) | AInt (n : nat).

(** Calls that leave the script for a third-party collaborator. *)
Inductive call :=
| C_OpenAI (kw : OpenAI_kwargs)
| C_Gemini (model : string)
| C_complete (prompt : string)
| C_load_data (input_dir : string)
| C_from_documents (documents : list Document)
| C_embed_query (text : string)
| C_get_response_synthesizer (mode : ResponseMode)
| C_synthesize (query : string) (nodes : list NodeWithScore).

(** [Log lvl fmt args exc_info] is one logging record; [logger.exception]
    is level [ERROR] with the exception being handled as [exc_info]. *)
Inductive event :=
| Log (lvl : level) (fmt : string) (args : list log_arg)
      (exc_info : option exn)
| Print (s : string)
| Call (c : call).

Definition is_call (ev : event) : bool :=
  match ev with Call _ => true | _ => false end.

Definition is_print (ev : event) : bool :=
  match ev with Print _ => true | _ => false end.

(** ** Outcomes *)

Inductive outcome (A : Type) :=
| Returned (a : A)
| Raised (e : exn).
Arguments Returned {A} a.
Arguments Raised {A} e.

(** ** Third-party collaborators

    The embedding model, the LLM, the directory reader and the index
    builder are not part of the repository.  They are taken as parameters:
    each is a function of its explicit arguments and of an opaque external
    state [Ext] (network, provider, file contents), may fail with any
    exception, and may change that state.  They are not handed the
    environment the scripts read their credentials from. *)
Class Library := {
  Ext : Type;
  LLM : Type;
  Synthesizer : Type;
  lib_OpenAI : OpenAI_kwargs → Ext → outcome LLM * Ext;
  lib_Gemini : string → Ext → outcome LLM * Ext;
  lib_complete : LLM → string → Ext → outcome string * Ext;
  lib_load_data : string → Ext → outcome (list Document) * Ext;
  lib_from_documents : list Document → Ext → outcome Index * Ext;
  lib_embed_query : string → Ext → outcome vector * Ext;
  lib_similarity : vector → vector → Q;
  lib_get_response_synthesizer :
    ResponseMode → option LLM → Ext → outcome Synthesizer * Ext;
  lib_synthesize : Synthesizer → string → list NodeWithScore →
                   Ext → outcome string * Ext
}.

(** ** The world *)

Record World `{Library} := mk_world {
  environ : gmap string string;
  dotenv_file : gmap string string;
  fs_paths : gset string;
  Settings_llm : option LLM;
  ext : Ext;
  trace : list event
}.
Arguments mk_world {_} _ _ _ _ _ _.

Section Monad.
Context `{L : Library}.

Definition Py (A : Type) : Type := World → outcome A * World.

Definition ret {A} (a : A) : Py A := λ w, (Returned a, w).

Definition raise {A} (e : exn) : Py A := λ w, (Raised e, w).

Definition bind {A B} (m : Py A) (k : A → Py B) : Py B :=
  λ w, match m w with
       | (Returned a, w') => k a w'
       | (Raised e, w') => (Raised e, w')
       end.

(** [try: body except Exception as e: handler e]. Every exception of the
    model is an instance of [Exception]. *)
Definition try_except {A} (body : Py A) (handler : exn → Py A) : Py A :=
  λ w, match body w with
       | (Returned a, w') => (Returned a, w')
       | (Raised e, w') => handler e w'
       end.

(** [try: body finally: fin]. *)
Definition try_finally {A} (body : Py A) (fin : Py unit) : Py A :=
  λ w, match body w with
       | (r, w') =>
           match fin w' with
           | (Returned _, w'') => (r, w'')
           | (Raised e, w'') => (Raised e, w'')
           end
       end.

(** A chain of [except C as e:] clauses: the first clause whose class the
    exception is an instance of handles it; with none, it propagates. *)
Fixpoint dispatch {A} (clauses : list (exn_class * (exn → Py A)))
         (e : exn) : Py A :=
  match clauses with
  | [] => raise e
  | (c, h) :: rest => if isinstance e c then h e else dispatch rest e
  end.

Definition try_except_clauses {A} (body : Py A)
           (clauses : list (exn_class * (exn → Py A))) : Py A :=
  try_except body (dispatch clauses).

Definition emit (ev : event) : Py unit :=
  λ w, (Returned (),
        mk_world (environ w) (dotenv_file w) (fs_paths w) (Settings_llm w)
                 (ext w) (trace w ++ [ev])).

(** Invoke a collaborator: the call is recorded, then it runs on the
    external state. *)
Definition external {A} (c : call) (f : Ext → outcome A * Ext) : Py A :=
  λ w, match f (ext w) with
       | (r, x') =>
           (r, mk_world (environ w) (dotenv_file w) (fs_paths w)
                        (Settings_llm w) x' (trace w ++ [Call c]))
       end.
End Monad.

Notation "'let!' x ':=' m 'in' k" := (bind m (λ x, k))
  (at level 10, x name, m at level 100, k at level 200, only parsing).
Notation "m >> k" := (bind m (λ _, k))
  (at level 100, k at level 200, right associativity, only parsing).

(** ** The standard library and [python-dotenv] *)

Section Primitives.
Context `{L : Library}.

(** [load_dotenv()] with its default [override=False]: every variable of
    the [.env] file that the process environment lacks is added to it. *)
Definition load_dotenv : Py unit :=
  λ w, (Returned (),
        mk_world (environ w ∪ dotenv_file w) (dotenv_file w) (fs_paths w)
                 (Settings_llm w) (ext w) (trace w)).

Definition os_getenv (name : string) : Py (option string) :=
  λ w, (Returned (environ w !! name), w).

(** [os.environ[name] = value]. *)
Definition os_environ_set (name value : string) : Py unit :=
  λ w, (Returned (),
        mk_world (<[name := value]> (environ w)) (dotenv_file w)
                 (fs_paths w) (Settings_llm w) (ext w) (trace w)).

Definition os_path_exists (path : string) : Py bool :=
  λ w, (Returned (bool_decide (path ∈ fs_paths w)), w).

(** [Settings.llm = llm]. *)
Definition Settings_set_llm (llm : LLM) : Py unit :=
  λ w, (Returned (),
        mk_world (environ w) (dotenv_file w) (fs_paths w) (Some llm)
                 (ext w) (trace w)).

Definition Settings_get_llm : Py (option LLM) :=
  λ w, (Returned (Settings_llm w), w).

Definition logger_info (fmt : string) (args : list log_arg) : Py unit :=
  emit (Log INFO fmt args None).
Definition logger_warning (fmt : string) (args : list log_arg) : Py unit :=
  emit (Log WARNING fmt args None).
Definition logger_error (fmt : string) (args : list log_arg) : Py unit :=
  emit (Log ERROR fmt args None).
Definition logger_critical (fmt : string) (args : list log_arg) : Py unit :=
  emit (Log CRITICAL fmt args None).
(** [logger.exception(msg)] inside the handler of [e]. *)
Definition logger_exception (fmt : string) (e : exn) : Py unit :=
  emit (Log ERROR fmt [] (Some e)).

Definition print (s : string) : Py unit := emit (Print s).
End Primitives.

(** The value of [v] when [v] is truthy: [not v] holds of [None] and of
    the empty string. *)
Definition truthy (v : option string) : option string :=
  match v with
  | Some s => if bool_decide (s = "") then None else Some s
  | None => None
  end.

(** [str(v)] of the result of [os.getenv]. *)
Definition str_of_getenv (v : option string) : string :=
  match v with Some s => s | None => "None" end.

Definition newline : string := String (Ascii.ascii_of_nat 10) EmptyString.

(** [sub in s]. *)
Definition contains (s sub : string) : Prop :=
  ∃ pre post, s = pre +:+ sub +:+ post.

(** ** The retriever query engine

    The retriever, the similarity postprocessor and the query engine are
    classes of the third-party library; the scripts only construct them.
    Their behaviour is taken from the specification's data model and
    query pipeline. *)

Module llama_index.
Section QueryEngine.
Context `{L : Library}.

(** Modelled from the spec: the library's retriever object, which holds
    the index it searches and its [top_k]. *)
Record VectorIndexRetriever := {
  retriever_index : Index;
  similarity_top_k : nat
}.

(** Modelled from the spec: the library's similarity postprocessor object,
    which holds its [similarity_cutoff]. *)
Inductive NodePostprocessor :=
| SimilarityPostprocessor (similarity_cutoff : Q).

(** Modelled from the spec: the library's query engine object, the
    "pipeline handle" made of a retriever, a synthesizer and the
    postprocessors applied in between. *)
Record RetrieverQueryEngine := {
  qe_retriever : VectorIndexRetriever;
  qe_response_synthesizer : Synthesizer;
  qe_node_postprocessors : list NodePostprocessor
}.

(** Modelled from the spec: the library's similarity scoring of the
    chunks of an index against an embedded query ("(Chunk, similarity
    score) pairs"); the metric itself is the embedding provider's. *)
Definition score_chunks (qv : vector) (idx : Index) : list NodeWithScore :=
  map (λ c, {| node := c;
               score := lib_similarity qv (chunk_embedding c) |}) idx.

(** Modelled from the spec: the library's ordering of a retrieval
    result, "descending by score"; chunks of equal score keep the order
    of the index. *)
Fixpoint insert_desc (n : NodeWithScore) (l : list NodeWithScore)
  : list NodeWithScore :=
  match l with
  | [] => [n]
  | m :: l' =>
      if Qle_bool (score m) (score n) then n :: m :: l'
      else m :: insert_desc n l'
  end.

Definition sort_desc (l : list NodeWithScore) : list NodeWithScore :=
  foldr insert_desc [] l.

(** Modelled from the spec: the library's nearest-neighbour search, the
    scored chunks "descending by score, truncated to top-K". *)
Definition top_k_nodes (k : nat) (qv : vector) (idx : Index)
  : list NodeWithScore :=
  take k (sort_desc (score_chunks qv idx)).

(** Modelled from the spec: the library's [retriever.retrieve(text)],
    which "embeds the query, retrieves the top-K nearest chunks by vector
    similarity". *)
Definition retrieve (r : VectorIndexRetriever) (text : string)
  : Py (list NodeWithScore) :=
  let! qv := external (C_embed_query text) (lib_embed_query text) in
  ret (top_k_nodes (similarity_top_k r) qv (retriever_index r)).

(** Modelled from the spec: the library's similarity postprocessor, "any
    retrieved chunk with score below the cutoff is discarded". *)
Definition postprocess_nodes (p : NodePostprocessor)
           (nodes : list NodeWithScore) : list NodeWithScore :=
  match p with
  | SimilarityPostprocessor cutoff =>
      List.filter (λ n, Qle_bool cutoff (score n)) nodes
  end.

Definition apply_postprocessors (ps : list NodePostprocessor)
           (nodes : list NodeWithScore) : list NodeWithScore :=
  fold_left (λ ns p, postprocess_nodes p ns) ps nodes.

(** Modelled from the spec: the retrieval result of a query, "truncated
    to top-K, then filtered to score >= threshold". *)
Definition retrieval_result (qe : RetrieverQueryEngine) (text : string)
  : Py (list NodeWithScore) :=
  let! nodes := retrieve (qe_retriever qe) text in
  ret (apply_postprocessors (qe_node_postprocessors qe) nodes).

(** Modelled from the spec: the library's [query_engine.query(text)],
    which retrieves, filters, and "synthesizes a natural-language answer
    from the surviving chunks"; the response carries "the list of source
    Chunks used". *)
Definition query (qe : RetrieverQueryEngine) (text : string)
  : Py Response :=
  let! nodes := retrieval_result qe text in
  let! answer := external (C_synthesize text nodes)
                   (lib_synthesize (qe_response_synthesizer qe)
                                   text nodes) in
  ret {| response_text := answer; source_nodes := nodes |}.

(** [get_response_synthesizer(response_mode=mode)]: the library's
    factory, which picks up the process-wide [Settings.llm]. *)
Definition get_response_synthesizer (mode : ResponseMode)
  : Py Synthesizer :=
  let! llm := Settings_get_llm in
  external (C_get_response_synthesizer mode)
           (lib_get_response_synthesizer mode llm).

(** [RetrieverQueryEngine(retriever)] with the library's defaults: the
    default response synthesizer and no node postprocessor. *)
Definition RetrieverQueryEngine_of (r : VectorIndexRetriever)
  : Py RetrieverQueryEngine :=
  let! synthesizer := get_response_synthesizer COMPACT in
  ret {| qe_retriever := r;
         qe_response_synthesizer := synthesizer;
         qe_node_postprocessors := [] |}.
End QueryEngine.
End llama_index.

(** ** [llama_intro.py] *)

Module llama_intro.
Import llama_index.
Section Script.
Context `{L : Library}.

Definition load_api_key : Py string :=
  try_except
    (load_dotenv >>
     let! api_key := os_getenv "OPEN_API_KEY" in
     match truthy api_key with
     | None =>
         logger_error "OPEN_API_KEY not found. Please set the API key in environment variables." [] >>
         raise (new_exn ValueError "OPEN_API_KEY is missing.")
     | Some api_key =>
         os_environ_set "OPEN_API_KEY" api_key >>
         logger_info "Successfully loaded OpenAI API key from environment." [] >>
         ret api_key
     end)
    (λ e, logger_exception "Error loading API key." e >> raise e).

Definition configure_llm (api_key : string) : Py unit :=
  try_except
    (let! llm := external
                   (C_OpenAI {| kw_temperature := Some (2 # 10)%Q;
                                kw_model := "gpt-3.5-turbo";
                                kw_openai_api_key := None |})
                   (lib_OpenAI {| kw_temperature := Some (2 # 10)%Q;
                                  kw_model := "gpt-3.5-turbo";
                                  kw_openai_api_key := None |}) in
     Settings_set_llm llm >>
     logger_info "LLM successfully configured with OpenAI settings." [])
    (λ e, logger_exception "Error configuring LLM." e >> raise e).

Definition load_documents_and_index (data_dir : string)
  : Py (Index * nat) :=
  try_except_clauses
    (let! found := os_path_exists data_dir in
     (if negb found then
        logger_error ("Data directory '" +:+ data_dir +:+ "' does not exist.") [] >>
        raise (new_exn FileNotFoundError
                       ("Directory '" +:+ data_dir +:+ "' not found."))
      else ret ()) >>
     logger_info "Loading documents from directory: %s" [AStr data_dir] >>
     let! documents :=
       try_except
         (external (C_load_data data_dir) (lib_load_data data_dir))
         (λ reader_error,
            logger_error "Failed to load data using SimpleDirectoryReader." [] >>
            raise (from_cause
                     (new_exn RuntimeError
                        ("Document loading failed: " +:+ exn_str reader_error))
                     reader_error)) in
     (match documents with
      | [] =>
          logger_warning "No documents found in the specified directory." [] >>
          raise (new_exn ValueError "No documents available to load.")
      | _ :: _ => ret ()
      end) >>
     logger_info "Successfully loaded %d documents." [AInt (length documents)] >>
     let! index :=
       try_except
         (external (C_from_documents documents)
                   (lib_from_documents documents))
         (λ index_error,
            logger_error "Failed to create VectorStoreIndex." [] >>
            raise (from_cause
                     (new_exn RuntimeError
                        ("Index creation failed: " +:+ exn_str index_error))
                     index_error)) in
     logger_info "VectorStoreIndex created successfully." [] >>
     ret (index, length documents))
    [ (FileNotFoundError,
       λ fnf_error,
         logger_error "FileNotFoundError: %s" [AStr (exn_str fnf_error)] >>
         raise fnf_error);
      (ValueError,
       λ ve_error,
         logger_warning "ValueError: %s" [AStr (exn_str ve_error)] >>
         raise ve_error);
      (RuntimeError,
       λ rt_error,
         logger_error "RuntimeError: %s" [AStr (exn_str rt_error)] >>
         raise rt_error);
      (Exception,
       λ e,
         logger_exception "An unexpected error occurred while processing documents or creating the index." e >>
         raise e) ].

Definition setup_query_engine (index : Index) : Py RetrieverQueryEngine :=
  try_except
    (let retriever := {| retriever_index := index;
                         similarity_top_k := 5 |} in
     let postprocessor := SimilarityPostprocessor (8 # 10)%Q in
     let! synthesizer := get_response_synthesizer COMPACT in
     let query_engine :=
       {| qe_retriever := retriever;
          qe_response_synthesizer := synthesizer;
          qe_node_postprocessors := [postprocessor] |} in
     logger_info "RetrieverQueryEngine successfully configured." [] >>
     ret query_engine)
    (λ e, logger_exception "Error setting up query engine." e >> raise e).

Definition execute_query (query_engine : RetrieverQueryEngine)
           (query_text : string) : Py Response :=
  try_except
    (logger_info "Executing query: %s" [AStr query_text] >>
     let! response := query query_engine query_text in
     logger_info "Query executed successfully." [] >>
     ret response)
    (λ e, logger_exception "Error executing query." e >> raise e).

Definition main : Py unit :=
  try_finally
    (try_except
       (logger_info "Starting the application." [] >>
        let! api_key := load_api_key in
        configure_llm api_key >>
        let data_directory := "data" in
        let! loaded := load_documents_and_index data_directory in
        let '(index, doc_count) := loaded in
        logger_info "Number of documents loaded: %d" [AInt doc_count] >>
        let! query_engine := setup_query_engine index in
        let sample_query := "What is the content of the documents?" in
        let! response := execute_query query_engine sample_query in
        logger_info "Response: %s" [AStr (response_text response)] >>
        print ("Query Response:" +:+ newline +:+ response_text response))
       (λ e,
          logger_critical "Application failed to execute due to an error: %s"
                          [AStr (exn_str e)]))
    (logger_info "Application execution completed." []).
End Script.
End llama_intro.

(** ** [test.py] *)

Module test_py.
Section Script.
Context `{L : Library}.

(** The module body, run top to bottom. *)
Definition script : Py unit :=
  load_dotenv >>
  let! shown := os_getenv "OPEN_API_KEY" in
  print ("OPEN_API_KEY: " +:+ str_of_getenv shown) >>
  let! open_api_key := os_getenv "OPEN_API_KEY" in
  match truthy open_api_key with
  | None =>
      raise (new_exn ValueError
               "API key not found. Please set the OPEN_API_KEY environment variable.")
  | Some open_api_key =>
      let kw := {| kw_temperature := None;
                   kw_model := "gpt-3.5-turbo";
                   kw_openai_api_key := Some open_api_key |} in
      let! llm := external (C_OpenAI kw) (lib_OpenAI kw) in
      let! response := external (C_complete "who is bhagath singh")
                         (lib_complete llm "who is bhagath singh") in
      print response
  end.
End Script.
End test_py.

(** ** [test_gemini.py] *)

Module test_gemini.
Import llama_index.
Section Script.
Context `{L : Library}.

Definition load_env_vars : Py string :=
  try_except
    (load_dotenv >>
     let! google_api_key := os_getenv "GOOGLE_API_KEY" in
     match google_api_key with
     | None =>
         logger_error "GOOGLE_API_KEY not found in environment variables." [] >>
         raise (new_exn ValueError "GOOGLE_API_KEY not found.")
     | Some google_api_key =>
         logger_info "Environment variables loaded successfully." [] >>
         ret google_api_key
     end)
    (λ e, logger_exception "Error loading environment variables." e >>
          raise e).

Definition create_llm : Py LLM :=
  try_except
    (let! google_api_key := load_env_vars in
     let! llm := external (C_Gemini "models/gemini-pro")
                          (lib_Gemini "models/gemini-pro") in
     logger_info "Google Gemini model created successfully." [] >>
     ret llm)
    (λ e, logger_exception "Error creating Google Gemini model." e >>
          raise e).

Definition create_index : Py Index :=
  try_except
    (let! documents := external (C_load_data "data")
                                (lib_load_data "data") in
     let! index := external (C_from_documents documents)
                            (lib_from_documents documents) in
     logger_info "Index created successfully." [] >>
     ret index)
    (λ e, logger_exception "Error creating index." e >> raise e).

Definition main : Py unit :=
  try_except
    (let! llm := create_llm in
     let! index := create_index in
     let retriever := {| retriever_index := index;
                         similarity_top_k := 10 |} in
     let! query_engine := RetrieverQueryEngine_of retriever in
     logger_info "Retriever and query engine set up successfully." [] >>
     let query_text := "Sample query text" in
     let! results := query query_engine query_text in
     logger_info ("Query results: " +:+ response_text results) [])
    (λ e, logger_exception "Error in main function." e >> raise e).

(** The module body: [load_dotenv()] at import time, then [main()]. *)
Definition script : Py unit := load_dotenv >> main.
End Script.
End test_gemini.

(** ** The vocabulary of the statements *)

Section Vocabulary.
Context `{L : Library}.
Import llama_index.

(** What a run of [m] from [w] appended to the trace. *)
Definition events_of {A} (m : Py A) (w : World) : list event :=
  drop (length (trace w)) (trace (snd (m w))).

(** What [os.getenv(name)] yields once [load_dotenv()] has run. *)
Definition getenv_after_dotenv (name : string) (w : World)
  : option string :=
  (environ w ∪ dotenv_file w) !! name.

(** [w] with the environment variable [name] set to [value]. *)
Definition with_env (name value : string) (w : World) : World :=
  mk_world (<[name := value]> (environ w)) (dotenv_file w) (fs_paths w)
           (Settings_llm w) (ext w) (trace w).

(** The four exceptions that [load_documents_and_index] raises itself. *)
Definition not_found_error (data_dir : string) : exn :=
  new_exn FileNotFoundError ("Directory '" +:+ data_dir +:+ "' not found.").

Definition document_load_error (reader_error : exn) : exn :=
  mk_exn RuntimeError
         ("Document loading failed: " +:+ exn_str reader_error)
         (Some reader_error).

Definition index_build_error (index_error : exn) : exn :=
  mk_exn RuntimeError
         ("Index creation failed: " +:+ exn_str index_error)
         (Some index_error).

Definition no_documents_error : exn :=
  new_exn ValueError "No documents available to load.".

(** The five ways a run of [load_documents_and_index] can go. *)
Inductive load_case (data_dir : string) (w : World) : Prop :=
| load_case_missing :
    data_dir ∉ fs_paths w → load_case data_dir w
| load_case_reader (e : exn) (x' : Ext) :
    data_dir ∈ fs_paths w →
    lib_load_data data_dir (ext w) = (Raised e, x') →
    load_case data_dir w
| load_case_empty (x' : Ext) :
    data_dir ∈ fs_paths w →
    lib_load_data data_dir (ext w) = (Returned [], x') →
    load_case data_dir w
| load_case_index (d : Document) (ds : list Document) (x' x'' : Ext)
                  (e : exn) :
    data_dir ∈ fs_paths w →
    lib_load_data data_dir (ext w) = (Returned (d :: ds), x') →
    lib_from_documents (d :: ds) x' = (Raised e, x'') →
    load_case data_dir w
| load_case_ok (d : Document) (ds : list Document) (x' x'' : Ext)
               (index : Index) :
    data_dir ∈ fs_paths w →
    lib_load_data data_dir (ext w) = (Returned (d :: ds), x') →
    lib_from_documents (d :: ds) x' = (Returned index, x'') →
    load_case data_dir w.

(** An operation run on a path reports the missing directory: it raises
    a [FileNotFoundError] whose message contains the path, and has asked
    nothing of a collaborator. *)
Definition reports_missing_directory {A} (op : Py A) (path : string)
           (w : World) : Prop :=
  ∃ e, fst (op w) = Raised e
       ∧ isinstance e FileNotFoundError = true
       ∧ contains (exn_str e) path
       ∧ existsb is_call (events_of op w) = false.

(** The length of the [__cause__] chain of an exception. *)
Fixpoint cause_depth (e : exn) : nat :=
  match e with
  | mk_exn _ _ None => 0
  | mk_exn _ _ (Some c) => S (cause_depth c)
  end.

(** Every element scores at most as much as the one before it. *)
Fixpoint descending (l : list NodeWithScore) : Prop :=
  match l with
  | [] => True
  | n :: l' =>
      match l' with
      | [] => True
      | m :: _ => (score m <= score n)%Q
      end ∧ descending l'
  end.

(** The chunks a query engine hands to its synthesizer once the query
    has been embedded as [qv]. *)
Definition surviving (qe : RetrieverQueryEngine) (qv : vector)
  : list NodeWithScore :=
  apply_postprocessors (qe_node_postprocessors qe)
    (top_k_nodes (similarity_top_k (qe_retriever qe)) qv
                 (retriever_index (qe_retriever qe))).


(** A computation is quiet when all it does to the trace is to append
    events, none of them a [print]. *)
Definition quiet {A} (m : Py A) : Prop :=
  ∀ w, ∃ evs : list event,
    trace (snd (m w)) = (trace w ++ evs)%list
    ∧ existsb is_print evs = false.

(** [e] is an error that one of the five stage functions raised to its
    caller. *)
Inductive stage_error (e : exn) : Prop :=
| stage_error_key (w : World) :
    fst (llama_intro.load_api_key w) = Raised e → stage_error e
| stage_error_llm (api_key : string) (w : World) :
    fst (llama_intro.configure_llm api_key w) = Raised e → stage_error e
| stage_error_load (data_dir : string) (w : World) :
    fst (llama_intro.load_documents_and_index data_dir w) = Raised e →
    stage_error e
| stage_error_setup (index : Index) (w : World) :
    fst (llama_intro.setup_query_engine index w) = Raised e → stage_error e
| stage_error_query (qe : RetrieverQueryEngine) (text : string) (w : World) :
    fst (llama_intro.execute_query qe text w) = Raised e → stage_error e.

(** The last two records of a failed run of [main]. *)
Definition fatal_log (e : exn) : event :=
  Log CRITICAL "Application failed to execute due to an error: %s"
      [AStr (exn_str e)] None.

Definition completed_log : event :=
  Log INFO "Application execution completed." [] None.

(** The two ways a run of [main] can end. *)
Inductive main_outcome (w : World) : Prop :=
| main_failed (e : exn) (evs : list event) :
    stage_error e →
    events_of llama_intro.main w
    = (evs ++ [fatal_log e; completed_log])%list →
    existsb is_print evs = false →
    main_outcome w
| main_answered (qe : RetrieverQueryEngine) (w0 w1 : World) (r : Response)
                (evs : list event) :
    llama_intro.execute_query
      qe "What is the content of the documents?" w0 = (Returned r, w1) →
    events_of llama_intro.main w
    = (evs ++ [ Log INFO "Response: %s" [AStr (response_text r)] None;
                Print ("Query Response:" +:+ newline +:+ response_text r);
                completed_log ])%list →
    existsb is_print evs = false →
    main_outcome w.



End Vocabulary.

(** ** The calls and records of the scripts *)

(** The collaborator calls among the events, in order. *)
Definition calls_of (evs : list event) : list call :=
  omap (λ ev, match ev with Call c => Some c | _ => None end) evs.

(** The keyword arguments [configure_llm] gives to [OpenAI]. *)
Definition openai_kwargs : OpenAI_kwargs :=
  {| kw_temperature := Some (2 # 10)%Q;
     kw_model := "gpt-3.5-turbo";
     kw_openai_api_key := None |}.

(** The query that [main] of [llama_intro.py] asks. *)
Definition sample_query : string := "What is the content of the documents?".

(** The place of a call in the pipeline of [llama_intro.py]. *)
Definition call_rank (c : call) : nat :=
  match c with
  | C_OpenAI _ => 0
  | C_load_data _ => 1
  | C_from_documents _ => 2
  | C_get_response_synthesizer _ => 3
  | C_embed_query _ => 4
  | C_synthesize _ _ => 5
  | C_Gemini _ => 6
  | C_complete _ => 7
  end.

(** The place of a call in the pipeline of [test_gemini.py]. *)
Definition gemini_rank (c : call) : nat :=
  match c with
  | C_Gemini _ => 0
  | C_load_data _ => 1
  | C_from_documents _ => 2
  | C_get_response_synthesizer _ => 3
  | C_embed_query _ => 4
  | C_synthesize _ _ => 5
  | C_OpenAI _ => 6
  | C_complete _ => 7
  end.

(** The arguments with which [main] of [llama_intro.py] reaches a
    collaborator. *)
Definition expected_call (c : call) : Prop :=
  match c with
  | C_OpenAI kw => kw = openai_kwargs
  | C_load_data input_dir => input_dir = "data"
  | C_from_documents documents => documents ≠ []
  | C_get_response_synthesizer mode => mode = COMPACT
  | C_embed_query text => text = sample_query
  | C_synthesize text _ => text = sample_query
  | C_Gemini _ | C_complete _ => False
  end.

(** The record that the [except] clause of [load_documents_and_index]
    for the class of [e] logs. *)
Definition handler_record (e : exn) : event :=
  match exn_cls e with
  | FileNotFoundError =>
      Log ERROR "FileNotFoundError: %s" [AStr (exn_str e)] None
  | ValueError => Log WARNING "ValueError: %s" [AStr (exn_str e)] None
  | _ => Log ERROR "RuntimeError: %s" [AStr (exn_str e)] None
  end.

(** The record of the last, catch-all [except] clause of
    [load_documents_and_index]. *)
Definition unexpected_record (e : exn) : event :=
  Log ERROR "An unexpected error occurred while processing documents or creating the index."
      [] (Some e).

(** The prompt and the keyword arguments of [test.py]. *)
Definition test_prompt : string := "who is bhagath singh".

Definition test_kwargs (open_api_key : string) : OpenAI_kwargs :=
  {| kw_temperature := None;
     kw_model := "gpt-3.5-turbo";
     kw_openai_api_key := Some open_api_key |}.

Section Configuration.
Context `{L : Library}.

End Configuration.

(** ** A concrete library and concrete worlds *)

Module Demo.
Definition sky : Document :=
  {| doc_id := "data/sky.txt";
     doc_text := "The sky is blue.";
     doc_metadata := [] |}.

Definition sea : Document :=
  {| doc_id := "data/sea.txt";
     doc_text := "The sea is deep.";
     doc_metadata := [("kind", "note")] |}.

Definition chunk_of (d : Document) : Chunk :=
  {| chunk_text := doc_text d;
     chunk_doc := doc_id d;
     chunk_embedding := [inject_Z (Z.of_nat (String.length (doc_text d)))] |}.

(** A library over a call counter.  The reader and the embedding of a
    query are left open; the score of a chunk is the product of the first
    coordinates, scaled to tenths. *)
Definition library (reader : string → outcome (list Document))
           (embed : string → nat → outcome vector) : Library :=
  {| Ext := nat;
     LLM := string;
     Synthesizer := ResponseMode * option string;
     lib_OpenAI kw x := (Returned (kw_model kw), S x);
     lib_Gemini model x := (Returned model, S x);
     lib_complete llm prompt x := (Returned ("echo: " +:+ prompt), S x);
     lib_load_data dir x := (reader dir, S x);
     lib_from_documents docs x := (Returned (map chunk_of docs), S x);
     lib_embed_query text x := (embed text x, S x);
     lib_similarity u v :=
       match u, v with
       | a :: _, b :: _ => (a * b * (1 # 10))%Q
       | _, _ => 0%Q
       end;
     lib_get_response_synthesizer mode llm x := (Returned (mode, llm), x);
     lib_synthesize s text nodes x :=
       (Returned (String.concat " " (map (λ n, chunk_text (node n)) nodes)),
        S x) |}.

Definition read_two (dir : string) : outcome (list Document) :=
  Returned [sky; sea].
Definition read_nothing (dir : string) : outcome (list Document) :=
  Returned [].
Definition read_denied (dir : string) : outcome (list Document) :=
  Raised (new_exn PermissionError "[Errno 13] Permission denied").
(** The reader of a directory that does not exist. *)
Definition read_missing (dir : string) : outcome (list Document) :=
  Raised (new_exn ValueError ("Directory " +:+ dir +:+ " does not exist.")).

Definition embed_const (text : string) (x : nat) : outcome vector :=
  Returned [(1 # 2)%Q].
(** An embedding that drifts with the number of calls made so far. *)
Definition embed_drift (text : string) (x : nat) : outcome vector :=
  Returned [inject_Z (Z.of_nat x)].

Definition chunk_at (name : string) (x : Z) : Chunk :=
  {| chunk_text := name; chunk_doc := "data/notes.txt";
     chunk_embedding := [inject_Z x] |}.

(** Seven chunks; against [embed_const] they score 0.9, 0.5, 0.8, 1.0,
    0.2, 0.6 and 0.7. *)
Definition seven : Index :=
  [ chunk_at "a" 18; chunk_at "b" 10; chunk_at "c" 16; chunk_at "d" 20;
    chunk_at "e" 4; chunk_at "f" 12; chunk_at "g" 14 ].

Definition world (L : Library) (env : gmap string string)
           (paths : gset string) (x : Ext) : World :=
  mk_world env ∅ paths None x [].
End Demo.

(** ** Facts about the environment *)

Section Run.
Context `{L : Library}.

Lemma getenv_with_env name value w :
  getenv_after_dotenv name (with_env name value w) = Some value.
Proof.
  unfold getenv_after_dotenv, with_env; cbn [environ dotenv_file].
  apply lookup_union_Some_l, lookup_insert_eq.
Qed.


Lemma truthy_Some_inv v s : truthy v = Some s → v = Some s ∧ s ≠ "".
Proof.
  destruct v as [s'|]; cbn; [|discriminate].
  case_bool_decide; [discriminate|]. intros [= ->]. done.
Qed.
End Run.

(** Symbolic execution of a script: unfold the monad and the primitives,
    reduce the projections of the world, and bring the trace back to the
    shape [trace w ++ events]. *)
Ltac py_unfold :=
  unfold bind, ret, raise, try_except_clauses, try_except, try_finally,
         external, load_dotenv, os_getenv, os_environ_set, os_path_exists,
         Settings_set_llm, Settings_get_llm, logger_info, logger_warning,
         logger_error, logger_critical, logger_exception, print, emit in *.

Ltac py_cbn :=
  cbn [fst snd environ dotenv_file fs_paths Settings_llm ext trace
       dispatch negb] in *.

Ltac py_trace :=
  rewrite <- ?app_assoc; cbn [app];
  rewrite ?drop_app_length; cbn [existsb is_call is_print orb].

(** ** The credential loaders *)

Section Credentials.
Context `{L : Library}.

Lemma load_api_key_missing (w : World) :
  truthy (getenv_after_dotenv "OPEN_API_KEY" w) = None →
  fst (llama_intro.load_api_key w)
  = Raised (new_exn ValueError "OPEN_API_KEY is missing.")
  ∧ existsb is_call (events_of llama_intro.load_api_key w) = false.
Proof.
  unfold getenv_after_dotenv, events_of, llama_intro.load_api_key.
  intros H. py_unfold. py_cbn. rewrite H. py_cbn.
  split; [reflexivity|]. by py_trace.
Qed.

Lemma load_api_key_present (w : World) (k : string) :
  truthy (getenv_after_dotenv "OPEN_API_KEY" w) = Some k →
  fst (llama_intro.load_api_key w) = Returned k ∧ k ≠ "".
Proof.
  unfold getenv_after_dotenv, llama_intro.load_api_key.
  intros H. py_unfold. py_cbn. rewrite H. py_cbn.
  split; [reflexivity|]. by apply truthy_Some_inv in H as [_ ?].
Qed.

Lemma load_env_vars_unset (w : World) :
  getenv_after_dotenv "GOOGLE_API_KEY" w = None →
  fst (test_gemini.load_env_vars w)
  = Raised (new_exn ValueError "GOOGLE_API_KEY not found.").
Proof.
  unfold getenv_after_dotenv, test_gemini.load_env_vars.
  intros H. py_unfold. py_cbn. by rewrite H.
Qed.

Lemma load_env_vars_set (w : World) (k : string) :
  getenv_after_dotenv "GOOGLE_API_KEY" w = Some k →
  fst (test_gemini.load_env_vars w) = Returned k.
Proof.
  unfold getenv_after_dotenv, test_gemini.load_env_vars.
  intros H. py_unfold. py_cbn. by rewrite H.
Qed.
End Credentials.

(** C1.  The credential loader is to raise the missing-credential error
    when its variable is unset or empty, and never to return an empty
    secret.  In a process whose [GOOGLE_API_KEY] is set to the empty string
    [load_env_vars] of [test_gemini.py] returns that empty string, whereas
    [load_api_key] of [llama_intro.py], given an empty [OPEN_API_KEY],
    raises [ValueError]. *)
Theorem load_env_vars_returns_empty_secret `{L : Library} (x : Ext) :
  fst (test_gemini.load_env_vars
         (Demo.world L {[ "GOOGLE_API_KEY" := "" ]} ∅ x))
  = Returned ""
  ∧ fst (llama_intro.load_api_key
           (Demo.world L {[ "OPEN_API_KEY" := "" ]} ∅ x))
    = Raised (new_exn ValueError "OPEN_API_KEY is missing.").
Proof.
  split.
  - apply load_env_vars_set. by vm_compute.
  - apply load_api_key_missing. by vm_compute.
Qed.

(** ** Loading documents and building the index *)

Ltac py_exn :=
  cbn [isinstance issubclass issubclass_fuel exn_class_eqb base_class
       exn_cls exn_str exn_cause new_exn from_cause orb] in *.

Section Ingestion.
Context `{L : Library}.

Lemma load_missing_directory (data_dir : string) (w : World) :
  data_dir ∉ fs_paths w →
  fst (llama_intro.load_documents_and_index data_dir w)
  = Raised (not_found_error data_dir)
  ∧ events_of (llama_intro.load_documents_and_index data_dir) w
    = [ Log ERROR ("Data directory '" +:+ data_dir +:+ "' does not exist.")
            [] None;
        Log ERROR "FileNotFoundError: %s"
            [AStr ("Directory '" +:+ data_dir +:+ "' not found.")] None ].
Proof.
  intros Hdir.
  unfold events_of, llama_intro.load_documents_and_index. py_unfold.
  rewrite (bool_decide_eq_false_2 _ Hdir). py_cbn. py_exn. py_cbn.
  split; [reflexivity|]. by py_trace.
Qed.

Lemma load_reader_failure (data_dir : string) (w : World)
      (reader_error : exn) (x' : Ext) :
  data_dir ∈ fs_paths w →
  lib_load_data data_dir (ext w) = (Raised reader_error, x') →
  fst (llama_intro.load_documents_and_index data_dir w)
  = Raised (document_load_error reader_error)
  ∧ events_of (llama_intro.load_documents_and_index data_dir) w
    = [ Log INFO "Loading documents from directory: %s" [AStr data_dir]
            None;
        Call (C_load_data data_dir);
        Log ERROR "Failed to load data using SimpleDirectoryReader." []
            None;
        Log ERROR "RuntimeError: %s"
            [AStr ("Document loading failed: " +:+ exn_str reader_error)]
            None ].
Proof.
  intros Hdir Hread.
  unfold events_of, llama_intro.load_documents_and_index. py_unfold.
  rewrite (bool_decide_eq_true_2 _ Hdir). py_cbn. rewrite Hread.
  py_cbn. py_exn. py_cbn.
  split; [reflexivity|]. by py_trace.
Qed.

Lemma load_no_documents (data_dir : string) (w : World) (x' : Ext) :
  data_dir ∈ fs_paths w →
  lib_load_data data_dir (ext w) = (Returned [], x') →
  fst (llama_intro.load_documents_and_index data_dir w)
  = Raised no_documents_error
  ∧ events_of (llama_intro.load_documents_and_index data_dir) w
    = [ Log INFO "Loading documents from directory: %s" [AStr data_dir]
            None;
        Call (C_load_data data_dir);
        Log WARNING "No documents found in the specified directory." []
            None;
        Log WARNING "ValueError: %s"
            [AStr "No documents available to load."] None ].
Proof.
  intros Hdir Hread.
  unfold events_of, llama_intro.load_documents_and_index. py_unfold.
  rewrite (bool_decide_eq_true_2 _ Hdir). py_cbn. rewrite Hread.
  py_cbn. py_exn. py_cbn.
  split; [reflexivity|]. by py_trace.
Qed.

Lemma load_index_failure (data_dir : string) (w : World)
      (d : Document) (ds : list Document) (x' x'' : Ext)
      (index_error : exn) :
  data_dir ∈ fs_paths w →
  lib_load_data data_dir (ext w) = (Returned (d :: ds), x') →
  lib_from_documents (d :: ds) x' = (Raised index_error, x'') →
  fst (llama_intro.load_documents_and_index data_dir w)
  = Raised (index_build_error index_error)
  ∧ events_of (llama_intro.load_documents_and_index data_dir) w
    = [ Log INFO "Loading documents from directory: %s" [AStr data_dir]
            None;
        Call (C_load_data data_dir);
        Log INFO "Successfully loaded %d documents."
            [AInt (length (d :: ds))] None;
        Call (C_from_documents (d :: ds));
        Log ERROR "Failed to create VectorStoreIndex." [] None;
        Log ERROR "RuntimeError: %s"
            [AStr ("Index creation failed: " +:+ exn_str index_error)]
            None ].
Proof.
  intros Hdir Hread Hindex.
  unfold events_of, llama_intro.load_documents_and_index. py_unfold.
  rewrite (bool_decide_eq_true_2 _ Hdir). py_cbn. rewrite Hread.
  py_cbn. rewrite Hindex. py_cbn. py_exn. py_cbn.
  split; [reflexivity|]. by py_trace.
Qed.

Lemma load_success (data_dir : string) (w : World)
      (d : Document) (ds : list Document) (x' x'' : Ext) (index : Index) :
  data_dir ∈ fs_paths w →
  lib_load_data data_dir (ext w) = (Returned (d :: ds), x') →
  lib_from_documents (d :: ds) x' = (Returned index, x'') →
  llama_intro.load_documents_and_index data_dir w
  = (Returned (index, length (d :: ds)),
     mk_world (environ w) (dotenv_file w) (fs_paths w) (Settings_llm w) x''
       (trace w ++
        [ Log INFO "Loading documents from directory: %s" [AStr data_dir]
              None;
          Call (C_load_data data_dir);
          Log INFO "Successfully loaded %d documents."
              [AInt (length (d :: ds))] None;
          Call (C_from_documents (d :: ds));
          Log INFO "VectorStoreIndex created successfully." [] None ])).
Proof.
  intros Hdir Hread Hindex.
  unfold llama_intro.load_documents_and_index. py_unfold.
  rewrite (bool_decide_eq_true_2 _ Hdir). py_cbn. rewrite Hread.
  py_cbn. rewrite Hindex. py_cbn. py_trace. reflexivity.
Qed.

Lemma load_cases (data_dir : string) (w : World) : load_case data_dir w.
Proof.
  destruct (decide (data_dir ∈ fs_paths w)) as [Hdir|Hdir];
    [|by apply load_case_missing].
  destruct (lib_load_data data_dir (ext w)) as [[[|d ds]|e] x'] eqn:Hread.
  - by eapply load_case_empty.
  - destruct (lib_from_documents (d :: ds) x') as [[index|e] x''] eqn:Hidx.
    + by eapply load_case_ok.
    + by eapply load_case_index.
  - by eapply load_case_reader.
Qed.
End Ingestion.

Section CreateIndex.
Context `{L : Library}.

Lemma create_index_reads_first (w : World) :
  ∃ evs, events_of test_gemini.create_index w
         = Call (C_load_data "data") :: evs.
Proof.
  unfold events_of, test_gemini.create_index. py_unfold.
  destruct (lib_load_data "data" (ext w)) as [[docs|e] x']; py_cbn.
  - destruct (lib_from_documents docs x') as [[index|e] x'']; py_cbn;
      py_trace; eauto.
  - py_trace; eauto.
Qed.

Lemma create_index_reader_failure (w : World) (e : exn) (x' : Ext) :
  lib_load_data "data" (ext w) = (Raised e, x') →
  fst (test_gemini.create_index w) = Raised e.
Proof.
  intros Hread. unfold test_gemini.create_index. py_unfold.
  by rewrite Hread.
Qed.

End CreateIndex.

Lemma cause_is_not_self (e c : exn) : exn_cause e = Some c → e ≠ c.
Proof.
  intros Hc ->. destruct c as [cls msg [c'|]]; cbn in Hc; [|discriminate].
  injection Hc as Hc. apply (f_equal cause_depth) in Hc. cbn in Hc. lia.
Qed.

(** C2, as stated, fails for [create_index] of [test_gemini.py]: with no
    directory [data] and a reader that rejects a missing directory, the
    reader has been called and the error is the reader's [ValueError]. *)
Lemma create_index_does_not_check_directory :
  let lib := Demo.library Demo.read_missing Demo.embed_const in
  let w := Demo.world lib ∅ ∅ 0%nat in
  ("data" ∉ fs_paths w)
  ∧ (¬ reports_missing_directory test_gemini.create_index "data" w).
Proof.
  split; [apply not_elem_of_empty|].
  intros (e & Hraised & Hclass & _ & Hcalls).
  vm_compute in Hcalls. discriminate.
Qed.

(** C2, amended.  For every directory path that does not exist,
    [load_documents_and_index] raises a [FileNotFoundError] whose message
    contains the path, before anything is asked of the reader or the index
    builder.  [create_index] makes no such check: the first thing it does is
    to call the reader on ["data"], and a failure of the reader is what it
    raises. *)
Theorem missing_directory_is_reported `{L : Library}
        (data_dir : string) (w : World) :
  data_dir ∉ fs_paths w →
  reports_missing_directory
    (llama_intro.load_documents_and_index data_dir) data_dir w
  ∧ (∃ evs, events_of test_gemini.create_index w
            = Call (C_load_data "data") :: evs)
  ∧ (∀ e x', lib_load_data "data" (ext w) = (Raised e, x') →
             fst (test_gemini.create_index w) = Raised e).
Proof.
  intros Hdir. destruct (load_missing_directory data_dir w Hdir) as [Hr Hev].
  split; [|split].
  - exists (not_found_error data_dir). repeat split.
    + exact Hr.
    + by exists "Directory '", "' not found.".
    + by rewrite Hev.
  - apply create_index_reads_first.
  - apply create_index_reader_failure.
Qed.

Lemma missing_directory_is_reported_witness :
  let lib := Demo.library Demo.read_missing Demo.embed_const in
  let w := Demo.world lib {[ "OPEN_API_KEY" := "sk-demo" ]} ∅ 0%nat in
  reports_missing_directory
    (llama_intro.load_documents_and_index "data") "data" w
  ∧ fst (test_gemini.create_index w)
    = Raised (new_exn ValueError "Directory data does not exist.").
Proof.
  intros lib w.
  destruct (missing_directory_is_reported (L := lib) "data" w)
    as (Hreport & _ & Hfail).
  - apply not_elem_of_empty.
  - split; [exact Hreport|]. by eapply Hfail.
Defined.

(** C3.  When the directory exists and the reader yields no document,
    [load_documents_and_index] raises the no-documents [ValueError] without
    the index builder having been called; and whenever it does return an
    index, that index was built from the whole, non-empty sequence of
    documents the reader returned, whose length is the count returned with
    it. *)
Theorem no_documents_is_an_error `{L : Library}
        (data_dir : string) (w : World) :
  data_dir ∈ fs_paths w →
  (∀ x', lib_load_data data_dir (ext w) = (Returned [], x') →
     fst (llama_intro.load_documents_and_index data_dir w)
     = Raised (new_exn ValueError "No documents available to load.")
     ∧ ∀ docs, Call (C_from_documents docs)
               ∉ events_of (llama_intro.load_documents_and_index data_dir) w)
  ∧ (∀ index n,
       fst (llama_intro.load_documents_and_index data_dir w)
       = Returned (index, n) →
       ∃ docs x',
         lib_load_data data_dir (ext w) = (Returned docs, x')
         ∧ docs ≠ []
         ∧ n = length docs
         ∧ fst (lib_from_documents docs x') = Returned index).
Proof.
  intros Hdir. split.
  - intros x' Hread.
    destruct (load_no_documents data_dir w x' Hdir Hread) as [Hr Hev].
    split; [exact Hr|]. intros docs. rewrite Hev.
    rewrite !elem_of_cons, elem_of_nil.
    intros [?|[?|[?|[?|[]]]]]; discriminate.
  - intros index n Hret.
    destruct (load_cases data_dir w)
      as [Hno|e x' _ Hread|x' _ Hread|d ds x' x'' e _ Hread Hidx
          |d ds x' x'' index' _ Hread Hidx].
    + done.
    + destruct (load_reader_failure data_dir w e x' Hdir Hread) as [Hr _].
      rewrite Hr in Hret. discriminate.
    + destruct (load_no_documents data_dir w x' Hdir Hread) as [Hr _].
      rewrite Hr in Hret. discriminate.
    + destruct (load_index_failure data_dir w d ds x' x'' e Hdir Hread Hidx)
        as [Hr _].
      rewrite Hr in Hret. discriminate.
    + rewrite (load_success data_dir w d ds x' x'' index' Hdir Hread Hidx)
        in Hret.
      cbn [fst] in Hret. injection Hret as <- <-.
      exists (d :: ds), x'. by rewrite Hidx.
Qed.

Lemma no_documents_is_an_error_witness :
  let lib := Demo.library Demo.read_nothing Demo.embed_const in
  let w := Demo.world lib ∅ {[ "data" ]} 0%nat in
  fst (llama_intro.load_documents_and_index "data" w)
  = Raised (new_exn ValueError "No documents available to load.").
Proof.
  intros lib w.
  destruct (no_documents_is_an_error (L := lib) "data" w) as [Hempty _].
  - by apply elem_of_singleton.
  - by destruct (Hempty 1%nat) as [Hr _].
Defined.

(** C4.  When the directory exists and the reader raises, whatever it
    raises, [load_documents_and_index] raises a [RuntimeError] whose cause
    is the reader's exception and whose message quotes it; the reader's
    exception is not what reaches the caller. *)
Theorem reader_failure_is_rewrapped `{L : Library}
        (data_dir : string) (w : World) (reader_error : exn) (x' : Ext) :
  data_dir ∈ fs_paths w →
  lib_load_data data_dir (ext w) = (Raised reader_error, x') →
  ∃ err,
    fst (llama_intro.load_documents_and_index data_dir w) = Raised err
    ∧ exn_cls err = RuntimeError
    ∧ exn_str err = "Document loading failed: " +:+ exn_str reader_error
    ∧ exn_cause err = Some reader_error
    ∧ err ≠ reader_error.
Proof.
  intros Hdir Hread.
  destruct (load_reader_failure data_dir w reader_error x' Hdir Hread)
    as [Hr _].
  exists (document_load_error reader_error). repeat split; [exact Hr|].
  by apply cause_is_not_self.
Qed.

Lemma reader_failure_is_rewrapped_witness :
  let lib := Demo.library Demo.read_denied Demo.embed_const in
  let w := Demo.world lib ∅ {[ "data" ]} 0%nat in
  ∃ err,
    fst (llama_intro.load_documents_and_index "data" w) = Raised err
    ∧ exn_cls err = RuntimeError
    ∧ exn_str err
      = "Document loading failed: [Errno 13] Permission denied"
    ∧ exn_cause err
      = Some (new_exn PermissionError "[Errno 13] Permission denied").
Proof.
  intros lib w.
  destruct (reader_failure_is_rewrapped (L := lib) "data" w
              (new_exn PermissionError "[Errno 13] Permission denied") 1%nat)
    as (err & Hr & Hcls & Hstr & Hcause & _).
  - by apply elem_of_singleton.
  - reflexivity.
  - by exists err.
Defined.

(** ** Retrieval *)

Section Retrieval.
Context `{L : Library}.
Import llama_index.

Lemma length_insert_desc (n : NodeWithScore) (l : list NodeWithScore) :
  length (insert_desc n l) = S (length l).
Proof.
  induction l as [|m l IH]; cbn; [done|].
  destruct (Qle_bool (score m) (score n)); cbn; [done|]. by rewrite IH.
Qed.

Lemma length_sort_desc (l : list NodeWithScore) :
  length (sort_desc l) = length l.
Proof.
  induction l as [|n l IH]; [done|].
  change (sort_desc (n :: l)) with (insert_desc n (sort_desc l)).
  by rewrite length_insert_desc, IH.
Qed.

Lemma insert_desc_perm (n : NodeWithScore) (l : list NodeWithScore) :
  insert_desc n l ≡ₚ n :: l.
Proof.
  induction l as [|m l IH]; cbn; [done|].
  destruct (Qle_bool (score m) (score n)); [done|].
  rewrite IH. apply Permutation_swap.
Qed.

Lemma sort_desc_perm (l : list NodeWithScore) : sort_desc l ≡ₚ l.
Proof.
  induction l as [|n l IH]; [done|].
  change (sort_desc (n :: l)) with (insert_desc n (sort_desc l)).
  by rewrite insert_desc_perm, IH.
Qed.

Lemma insert_desc_descending (n : NodeWithScore) (l : list NodeWithScore) :
  descending l → descending (insert_desc n l).
Proof.
  induction l as [|m l IH]; cbn [insert_desc]; [done|].
  intros Hl. destruct (Qle_bool (score m) (score n)) eqn:Hle.
  - apply Qle_bool_iff in Hle. by split.
  - assert (score n <= score m)%Q as Hnm.
    { apply Qlt_le_weak, Qnot_le_lt. intros H.
      apply Qle_bool_iff in H. congruence. }
    destruct Hl as [Hhd Htl]. specialize (IH Htl).
    split; [|exact IH].
    destruct l as [|m' l]; cbn [insert_desc]; [done|].
    by destruct (Qle_bool (score m') (score n)).
Qed.

Lemma sort_desc_descending (l : list NodeWithScore) :
  descending (sort_desc l).
Proof.
  induction l as [|n l IH]; [done|].
  change (sort_desc (n :: l)) with (insert_desc n (sort_desc l)).
  by apply insert_desc_descending.
Qed.

Lemma length_top_k_nodes (k : nat) (qv : vector) (idx : Index) :
  length (top_k_nodes k qv idx) = k `min` length idx.
Proof.
  unfold top_k_nodes, score_chunks.
  by rewrite length_take, length_sort_desc, length_map.
Qed.

Lemma length_postprocess_nodes (p : NodePostprocessor)
      (nodes : list NodeWithScore) :
  (length (postprocess_nodes p nodes) ≤ length nodes)%nat.
Proof. destruct p; cbn. apply filter_length_le. Qed.

Lemma length_apply_postprocessors (ps : list NodePostprocessor)
      (nodes : list NodeWithScore) :
  (length (apply_postprocessors ps nodes) ≤ length nodes)%nat.
Proof.
  unfold apply_postprocessors.
  revert nodes; induction ps as [|p ps IH]; intros nodes; cbn; [done|].
  etrans; [apply IH|]. apply length_postprocess_nodes.
Qed.

(** What [retrieve] and [retrieval_result] do, by the outcome of the
    embedding of the query. *)
Lemma retrieve_run (r : VectorIndexRetriever) (text : string) (w : World) :
  retrieve r text w
  = match lib_embed_query text (ext w) with
    | (Returned qv, x') =>
        (Returned (top_k_nodes (similarity_top_k r) qv (retriever_index r)),
         mk_world (environ w) (dotenv_file w) (fs_paths w) (Settings_llm w)
                  x' (trace w ++ [Call (C_embed_query text)]))
    | (Raised e, x') =>
        (Raised e,
         mk_world (environ w) (dotenv_file w) (fs_paths w) (Settings_llm w)
                  x' (trace w ++ [Call (C_embed_query text)]))
    end.
Proof.
  unfold retrieve. py_unfold.
  by destruct (lib_embed_query text (ext w)) as [[qv|e] x'].
Qed.

Lemma retrieval_result_run (qe : RetrieverQueryEngine) (text : string)
      (w : World) :
  retrieval_result qe text w
  = match lib_embed_query text (ext w) with
    | (Returned qv, x') =>
        (Returned (apply_postprocessors (qe_node_postprocessors qe)
                     (top_k_nodes (similarity_top_k (qe_retriever qe)) qv
                                  (retriever_index (qe_retriever qe)))),
         mk_world (environ w) (dotenv_file w) (fs_paths w) (Settings_llm w)
                  x' (trace w ++ [Call (C_embed_query text)]))
    | (Raised e, x') =>
        (Raised e,
         mk_world (environ w) (dotenv_file w) (fs_paths w) (Settings_llm w)
                  x' (trace w ++ [Call (C_embed_query text)]))
    end.
Proof.
  unfold retrieval_result, bind. rewrite retrieve_run.
  by destruct (lib_embed_query text (ext w)) as [[qv|e] x'].
Qed.





(** The engines the two scripts configure. *)
Lemma setup_query_engine_returned (index : Index) (w w' : World)
      (qe : RetrieverQueryEngine) :
  llama_intro.setup_query_engine index w = (Returned qe, w') →
  qe_retriever qe = {| retriever_index := index; similarity_top_k := 5 |}
  ∧ qe_node_postprocessors qe = [SimilarityPostprocessor (8 # 10)%Q].
Proof.
  unfold llama_intro.setup_query_engine, get_response_synthesizer.
  py_unfold. py_cbn.
  destruct (lib_get_response_synthesizer _ _ _) as [[s|e] x'];
    [|discriminate].
  by intros [= <- _].
Qed.

End Retrieval.

Section QueryRuns.
Context `{L : Library}.
Import llama_index.

(** A run of [execute_query], by the outcomes of the two collaborators
    it reaches. *)
Lemma execute_query_run (qe : RetrieverQueryEngine) (text : string)
      (w : World) :
  llama_intro.execute_query qe text w
  = let world_at x evs :=
      mk_world (environ w) (dotenv_file w) (fs_paths w) (Settings_llm w) x
        (trace w ++ Log INFO "Executing query: %s" [AStr text] None
                 :: Call (C_embed_query text) :: evs) in
    match lib_embed_query text (ext w) with
    | (Raised e, x1) =>
        (Raised e,
         world_at x1 [Log ERROR "Error executing query." [] (Some e)])
    | (Returned qv, x1) =>
        match lib_synthesize (qe_response_synthesizer qe) text
                             (surviving qe qv) x1 with
        | (Returned answer, x2) =>
            (Returned {| response_text := answer;
                         source_nodes := surviving qe qv |},
             world_at x2
               [Call (C_synthesize text (surviving qe qv));
                Log INFO "Query executed successfully." [] None])
        | (Raised e, x2) =>
            (Raised e,
             world_at x2
               [Call (C_synthesize text (surviving qe qv));
                Log ERROR "Error executing query." [] (Some e)])
        end
    end.
Proof.
  unfold llama_intro.execute_query, query.
  unfold try_except, bind at 1 2 3, logger_info, emit.
  rewrite retrieval_result_run. py_cbn. fold (surviving qe).
  destruct (lib_embed_query text (ext w)) as [[qv|e] x1]; py_unfold; py_cbn.
  - destruct (lib_synthesize _ _ _ _) as [[answer|e] x2]; py_cbn;
      by py_trace.
  - by py_trace.
Qed.

Lemma surviving_bounded (qe : RetrieverQueryEngine) (qv : vector) :
  (length (surviving qe qv) ≤ similarity_top_k (qe_retriever qe))%nat.
Proof.
  unfold surviving. etrans; [apply length_apply_postprocessors|].
  rewrite length_top_k_nodes. lia.
Qed.
End QueryRuns.



Lemma filter_sublist {A} (f : A → bool) (l : list A) :
  List.filter f l `sublist_of` l.
Proof.
  induction l as [|a l IH]; cbn; [constructor|].
  destruct (f a); by constructor.
Qed.

(** C6.  Spec-modelled retrieval.  With the engine [setup_query_engine]
    configures, once the query is embedded the synthesizer is called, once,
    on exactly those of the five best-scoring chunks whose score is at
    least 0.8, in their retrieval order; a retrieved chunk scoring below
    0.8 is not among them, and they are the sources of the response. *)
Theorem cutoff_is_applied_after_top_k `{L : Library}
        (index : Index) (w w' w1 : World)
        (qe : llama_index.RetrieverQueryEngine)
        (text : string) (qv : vector) (x1 : Ext) :
  llama_intro.setup_query_engine index w = (Returned qe, w') →
  lib_embed_query text (ext w1) = (Returned qv, x1) →
  let retrieved := llama_index.top_k_nodes 5 qv index in
  let kept := List.filter (λ n, Qle_bool (8 # 10) (score n)) retrieved in
  (∃ evs,
     events_of (llama_intro.execute_query qe text) w1
     = Log INFO "Executing query: %s" [AStr text] None
       :: Call (C_embed_query text)
       :: Call (C_synthesize text kept) :: evs
     ∧ existsb is_call evs = false)
  ∧ (∀ n, n ∈ kept ↔ n ∈ retrieved ∧ (8 # 10 <= score n)%Q)
  ∧ (∀ n, n ∈ retrieved → (score n < 8 # 10)%Q → n ∉ kept)
  ∧ kept `sublist_of` retrieved
  ∧ (∀ r w2,
       llama_intro.execute_query qe text w1 = (Returned r, w2) →
       source_nodes r = kept).
Proof.
  intros [Hr Hp]%setup_query_engine_returned Hembed retrieved kept.
  assert (surviving qe qv = kept) as Hkept.
  { unfold surviving. by rewrite Hr, Hp. }
  assert (∀ n, n ∈ kept ↔ n ∈ retrieved ∧ (8 # 10 <= score n)%Q) as Hin.
  { intros n. unfold kept.
    rewrite !list_elem_of_In, filter_In, Qle_bool_iff. done. }
  split; [|split; [exact Hin|split; [|split]]].
  - unfold events_of. rewrite execute_query_run, Hembed, Hkept.
    destruct (lib_synthesize _ _ _ _) as [[answer|e] x2];
      py_cbn; py_trace; eauto.
  - intros n _ Hlt [_ Hle]%Hin. by apply Qlt_not_le in Hlt.
  - apply filter_sublist.
  - intros r w2. rewrite execute_query_run, Hembed, Hkept.
    destruct (lib_synthesize _ _ _ _) as [[answer|e] x2]; [|discriminate].
    by intros [= <- _].
Qed.

Lemma cutoff_is_applied_after_top_k_witness :
  let lib := Demo.library Demo.read_two Demo.embed_const in
  let w := Demo.world lib ∅ ∅ 0%nat in
  ∃ qe w' r w2,
    llama_intro.setup_query_engine Demo.seven w = (Returned qe, w')
    ∧ llama_intro.execute_query qe "sky?" w' = (Returned r, w2)
    ∧ map (λ n, chunk_text (node n))
          (llama_index.top_k_nodes 5 [(1 # 2)%Q] Demo.seven)
      = ["d"; "a"; "c"; "g"; "f"]
    ∧ map (λ n, chunk_text (node n)) (source_nodes r) = ["d"; "a"; "c"]
    ∧ response_text r = "d a c".
Proof.
  intros lib w.
  eassert (llama_intro.setup_query_engine Demo.seven w = (Returned _, _))
    as Hsetup by (vm_compute; reflexivity).
  match type of Hsetup with
  | _ = (Returned ?qe, ?w') =>
      eassert (llama_intro.execute_query qe "sky?" w' = (Returned _, _))
        as Hrun by (vm_compute; reflexivity);
      destruct (cutoff_is_applied_after_top_k
                  (L := lib) Demo.seven w w' w' qe "sky?" [(1 # 2)%Q] 1%nat
                  Hsetup eq_refl) as (_ & _ & _ & _ & Hsources)
  end.
  specialize (Hsources _ _ Hrun).
  eexists _, _, _, _. split; [exact Hsetup|]. split; [exact Hrun|].
  split; [reflexivity|]. split; [|reflexivity].
  rewrite Hsources. reflexivity.
Defined.



(** With an embedding that depends on the provider's state the scores of
    two successive calls differ. *)
Lemma drifting_embedding_changes_scores :
  let lib := Demo.library Demo.read_two Demo.embed_drift in
  let w := Demo.world lib ∅ ∅ 1%nat in
  ∃ qe w0 r1 w1 r2 w2,
    llama_intro.setup_query_engine Demo.seven w = (Returned qe, w0)
    ∧ llama_intro.execute_query qe "sky?" w0 = (Returned r1, w1)
    ∧ llama_intro.execute_query qe "sky?" w1 = (Returned r2, w2)
    ∧ map score (source_nodes r1) ≠ map score (source_nodes r2).
Proof.
  intros lib w. eexists _, _, _, _, _, _.
  split; [vm_compute; reflexivity|].
  split; [vm_compute; reflexivity|].
  split; [vm_compute; reflexivity|].
  by vm_compute.
Qed.

(** ** The stages of [llama_intro.py] *)

(** Case analysis on the next collaborator call, test or branch that a
    symbolic run is stuck on. *)
Ltac py_case :=
  match goal with
  | |- context [lib_OpenAI ?kw ?x] =>
      destruct (lib_OpenAI kw x) as [[?|?] ?] eqn:?
  | |- context [lib_Gemini ?m ?x] =>
      destruct (lib_Gemini m x) as [[?|?] ?] eqn:?
  | |- context [lib_complete ?l ?p ?x] =>
      destruct (lib_complete l p x) as [[?|?] ?] eqn:?
  | |- context [lib_load_data ?d ?x] =>
      destruct (lib_load_data d x) as [[[|? ?]|?] ?] eqn:?
  | |- context [lib_from_documents ?d ?x] =>
      destruct (lib_from_documents d x) as [[?|?] ?] eqn:?
  | |- context [lib_embed_query ?t ?x] =>
      destruct (lib_embed_query t x) as [[?|?] ?] eqn:?
  | |- context [lib_get_response_synthesizer ?m ?l ?x] =>
      destruct (lib_get_response_synthesizer m l x) as [[?|?] ?] eqn:?
  | |- context [lib_synthesize ?s ?t ?n ?x] =>
      destruct (lib_synthesize s t n x) as [[?|?] ?] eqn:?
  | |- context [bool_decide ?P] => destruct (bool_decide P) eqn:?
  | |- context [truthy ?v] => destruct (truthy v) eqn:?
  end.

Ltac py_run := py_unfold; py_cbn; repeat (py_case; py_cbn; py_exn; py_cbn).

Section Stages.
Context `{L : Library}.
Import llama_index.

Ltac quiet_run :=
  intros w; py_run; rewrite <- ?app_assoc; cbn [app];
  eexists; (split; [reflexivity|reflexivity]).

Lemma load_api_key_quiet : quiet llama_intro.load_api_key.
Proof. unfold llama_intro.load_api_key. quiet_run. Qed.

Lemma configure_llm_quiet (api_key : string) :
  quiet (llama_intro.configure_llm api_key).
Proof. unfold llama_intro.configure_llm. quiet_run. Qed.

Lemma load_documents_and_index_quiet (data_dir : string) :
  quiet (llama_intro.load_documents_and_index data_dir).
Proof. unfold llama_intro.load_documents_and_index. quiet_run. Qed.

Lemma setup_query_engine_quiet (index : Index) :
  quiet (llama_intro.setup_query_engine index).
Proof.
  unfold llama_intro.setup_query_engine, get_response_synthesizer.
  quiet_run.
Qed.

Lemma execute_query_quiet (qe : RetrieverQueryEngine) (text : string) :
  quiet (llama_intro.execute_query qe text).
Proof.
  intros w. rewrite execute_query_run.
  py_run; rewrite <- ?app_assoc; cbn [app];
    eexists; (split; [reflexivity|reflexivity]).
Qed.





End Stages.

(** ** The entry point of [llama_intro.py] *)

Section MainRun.
Context `{L : Library}.
Import llama_index.

Ltac main_events Hmain :=
  unfold events_of; rewrite Hmain; cbn [snd trace];
  repeat match goal with
         | Q : trace _ = _ |- _ => rewrite Q; clear Q
         end;
  rewrite <- ?app_assoc; rewrite drop_app_length; reflexivity.

Ltac no_prints :=
  rewrite ?existsb_app;
  repeat match goal with
         | Hp : existsb is_print _ = false |- _ => rewrite Hp; clear Hp
         end;
  reflexivity.

(** [main] always returns, and ends in one of the two ways. *)
Lemma main_always_ends (w : World) :
  fst (llama_intro.main w) = Returned () ∧ main_outcome w.
Proof.
  destruct (llama_intro.main w) as [o wf] eqn:HR.
  pose proof HR as Hmain.
  unfold llama_intro.main in HR.
  unfold try_finally, try_except, bind, logger_info, logger_critical, print,
    emit, ret in HR.
  cbn [fst snd trace environ dotenv_file fs_paths Settings_llm ext] in HR.
  set (start := Log INFO "Starting the application." [] None) in *.
  match goal with
  | HR : context [llama_intro.load_api_key ?w0] |- _ => 
      destruct (load_api_key_quiet w0) as (evs1 & Q1 & Hp1);
      destruct (llama_intro.load_api_key w0) as [[api_key|e] w1] eqn:H1;
      cbn [snd fst trace environ dotenv_file fs_paths Settings_llm ext]
        in Q1, HR
  end.
  2:{ injection HR as <- <-. split; [reflexivity|].
      apply (main_failed w e ([start] ++ evs1)).
      - eapply stage_error_key. by erewrite H1.
      - main_events Hmain.
      - no_prints. }
  match goal with
  | HR : context [llama_intro.configure_llm ?k ?w0] |- _ =>
      destruct (configure_llm_quiet k w0) as (evs2 & Q2 & Hp2);
      destruct (llama_intro.configure_llm k w0) as [[?|e] w2] eqn:H2;
      cbn [snd fst trace environ dotenv_file fs_paths Settings_llm ext]
        in Q2, HR
  end.
  2:{ injection HR as <- <-. split; [reflexivity|].
      apply (main_failed w e ([start] ++ evs1 ++ evs2)).
      - eapply stage_error_llm. by erewrite H2.
      - main_events Hmain.
      - no_prints. }
  match goal with
  | HR : context [llama_intro.load_documents_and_index ?d ?w0] |- _ =>
      destruct (load_documents_and_index_quiet d w0) as (evs3 & Q3 & Hp3);
      destruct (llama_intro.load_documents_and_index d w0)
        as [[[index doc_count]|e] w3] eqn:H3;
      cbn [snd fst trace environ dotenv_file fs_paths Settings_llm ext]
        in Q3, HR
  end.
  2:{ injection HR as <- <-. split; [reflexivity|].
      apply (main_failed w e ([start] ++ evs1 ++ evs2 ++ evs3)).
      - eapply stage_error_load. by erewrite H3.
      - main_events Hmain.
      - no_prints. }
  set (loaded := Log INFO "Number of documents loaded: %d" [AInt doc_count]
                     None) in *.
  match goal with
  | HR : context [llama_intro.setup_query_engine ?i ?w0] |- _ =>
      destruct (setup_query_engine_quiet i w0) as (evs4 & Q4 & Hp4);
      destruct (llama_intro.setup_query_engine i w0) as [[qe|e] w4] eqn:H4;
      cbn [snd fst trace environ dotenv_file fs_paths Settings_llm ext]
        in Q4, HR
  end.
  2:{ injection HR as <- <-. split; [reflexivity|].
      apply (main_failed w e
               ([start] ++ evs1 ++ evs2 ++ evs3 ++ [loaded] ++ evs4)).
      - eapply stage_error_setup. by erewrite H4.
      - main_events Hmain.
      - no_prints. }
  match goal with
  | HR : context [llama_intro.execute_query ?qe ?t ?w0] |- _ =>
      destruct (execute_query_quiet qe t w0) as (evs5 & Q5 & Hp5);
      destruct (llama_intro.execute_query qe t w0) as [[r|e] w5] eqn:H5;
      cbn [snd fst trace environ dotenv_file fs_paths Settings_llm ext]
        in Q5, HR
  end.
  2:{ injection HR as <- <-. split; [reflexivity|].
      apply (main_failed w e
               ([start] ++ evs1 ++ evs2 ++ evs3 ++ [loaded] ++ evs4 ++ evs5)).
      - eapply stage_error_query. by erewrite H5.
      - main_events Hmain.
      - no_prints. }
  injection HR as <- <-. split; [reflexivity|].
  eapply (main_answered w _ _ _ r
            ([start] ++ evs1 ++ evs2 ++ evs3 ++ [loaded] ++ evs4 ++ evs5)).
  - exact H5.
  - main_events Hmain.
  - no_prints.
Qed.
End MainRun.

(** ** Missing credentials *)

(** C8.  When [OPEN_API_KEY] is absent from the environment and from
    [.env], [load_api_key] raises the missing-credential [ValueError];
    [main] of [llama_intro.py] then does nothing but log (the start, the
    two error records of [load_api_key], the fatal record and the
    completion) and calls no collaborator; the body of [test.py] prints the
    debug line, raises its [ValueError], and calls no collaborator. *)
Theorem missing_key_precedes_provider_calls `{L : Library} (w : World) :
  getenv_after_dotenv "OPEN_API_KEY" w = None →
  let missing := new_exn ValueError "OPEN_API_KEY is missing." in
  fst (llama_intro.load_api_key w) = Raised missing
  ∧ fst (llama_intro.main w) = Returned ()
  ∧ events_of llama_intro.main w
    = [ Log INFO "Starting the application." [] None;
        Log ERROR "OPEN_API_KEY not found. Please set the API key in environment variables." [] None;
        Log ERROR "Error loading API key." [] (Some missing);
        fatal_log missing;
        completed_log ]
  ∧ existsb is_call (events_of llama_intro.main w) = false
  ∧ fst (test_py.script w)
    = Raised (new_exn ValueError
                "API key not found. Please set the OPEN_API_KEY environment variable.")
  ∧ events_of test_py.script w = [Print "OPEN_API_KEY: None"]
  ∧ existsb is_call (events_of test_py.script w) = false.
Proof.
  intros Hkey missing.
  assert (events_of llama_intro.main w
          = [ Log INFO "Starting the application." [] None;
              Log ERROR "OPEN_API_KEY not found. Please set the API key in environment variables." [] None;
              Log ERROR "Error loading API key." [] (Some missing);
              fatal_log missing;
              completed_log ]) as Hmain.
  { unfold events_of, llama_intro.main, llama_intro.load_api_key.
    unfold getenv_after_dotenv in Hkey.
    py_unfold. py_cbn. rewrite Hkey. cbn [truthy]. py_cbn. py_trace.
    reflexivity. }
  assert (events_of test_py.script w = [Print "OPEN_API_KEY: None"])
    as Hscript.
  { unfold events_of, test_py.script. unfold getenv_after_dotenv in Hkey.
    py_unfold. py_cbn. rewrite Hkey. cbn [truthy]. py_cbn. by py_trace. }
  split; [|split; [|split; [exact Hmain|split; [|split; [|split]]]]].
  - apply load_api_key_missing. by rewrite Hkey.
  - apply main_always_ends.
  - by rewrite Hmain.
  - unfold test_py.script. unfold getenv_after_dotenv in Hkey.
    py_unfold. py_cbn. by rewrite Hkey.
  - exact Hscript.
  - by rewrite Hscript.
Qed.

Lemma missing_key_precedes_provider_calls_witness :
  let lib := Demo.library Demo.read_two Demo.embed_const in
  let w := Demo.world lib {[ "HOME" := "/root" ]} {[ "data" ]} 0%nat in
  fst (llama_intro.main w) = Returned ()
  ∧ existsb is_call (events_of llama_intro.main w) = false
  ∧ existsb is_call (events_of test_py.script w) = false
  ∧ ext (snd (llama_intro.main w)) = 0%nat.
Proof.
  intros lib w.
  destruct (missing_key_precedes_provider_calls (L := lib) w)
    as (_ & Hret & _ & Hcalls & _ & _ & Hscript).
  - by vm_compute.
  - split; [exact Hret|split; [exact Hcalls|split; [exact Hscript|]]].
    reflexivity.
Defined.

(** With the key present the same run does reach the collaborators. *)
Lemma present_key_reaches_providers :
  let lib := Demo.library Demo.read_two Demo.embed_const in
  let w := Demo.world lib {[ "OPEN_API_KEY" := "sk-demo" ]} {[ "data" ]}
                      0%nat in
  length (List.filter is_call (events_of llama_intro.main w)) = 6%nat
  ∧ List.filter is_print (events_of llama_intro.main w)
    = [ Print ("Query Response:" +:+ newline
               +:+ "The sky is blue. The sea is deep.") ].
Proof. by vm_compute. Qed.

(** ** Error propagation *)



(** [main] of [test_gemini.py], by contrast, logs the error at level
    [ERROR] and raises it again to the interpreter. *)
Lemma test_gemini_main_propagates `{L : Library} (w : World) :
  getenv_after_dotenv "GOOGLE_API_KEY" w = None →
  let missing := new_exn ValueError "GOOGLE_API_KEY not found." in
  fst (test_gemini.main w) = Raised missing
  ∧ last (events_of test_gemini.main w)
    = Some (Log ERROR "Error in main function." [] (Some missing)).
Proof.
  intros Hkey missing.
  unfold events_of, test_gemini.main, test_gemini.create_llm,
    test_gemini.load_env_vars.
  unfold getenv_after_dotenv in Hkey.
  py_unfold. py_cbn. rewrite Hkey. py_cbn.
  split; [reflexivity|]. by py_trace.
Qed.

(** ** The credential and the LLM *)

Section Credential.
Context `{L : Library}.
Import llama_index.










Lemma load_api_key_with_key (w : World) (k : string) :
  truthy (getenv_after_dotenv "OPEN_API_KEY" w) = Some k →
  llama_intro.load_api_key w
  = (Returned k,
     mk_world (<["OPEN_API_KEY" := k]> (environ w ∪ dotenv_file w))
       (dotenv_file w) (fs_paths w) (Settings_llm w) (ext w)
       (trace w ++ [Log INFO "Successfully loaded OpenAI API key from environment." [] None])).
Proof.
  unfold getenv_after_dotenv, llama_intro.load_api_key. intros H.
  py_unfold. py_cbn. by rewrite H.
Qed.




End Credential.



(** [test.py], by contrast, hands the key to the constructor. *)
Lemma test_py_passes_the_key :
  let lib := Demo.library Demo.read_two Demo.embed_const in
  let w := Demo.world lib ∅ ∅ 0%nat in
  events_of test_py.script (with_env "OPEN_API_KEY" "sk-one" w)
  = [ Print "OPEN_API_KEY: sk-one";
      Call (C_OpenAI {| kw_temperature := None;
                        kw_model := "gpt-3.5-turbo";
                        kw_openai_api_key := Some "sk-one" |});
      Call (C_complete "who is bhagath singh");
      Print "echo: who is bhagath singh" ].
Proof. by vm_compute. Qed.

(** ** Further properties of the credential loaders *)

Lemma union_dotenv_twice `{L : Library} (w : World) :
  (environ w ∪ dotenv_file w) ∪ dotenv_file w = environ w ∪ dotenv_file w.
Proof. by rewrite <- (assoc_L (∪)), (idemp_L (∪)). Qed.

(** X1.  When a non-empty [OPEN_API_KEY] is found, [load_api_key] leaves
    the environment exactly as [load_dotenv] made it (writing the key back
    changes nothing), the key can be read back from it, no variable the
    process already had changes, and a second call returns the same key
    and leaves the environment as it is. *)
Theorem load_api_key_settles_environment `{L : Library}
        (w : World) (k : string) :
  truthy (getenv_after_dotenv "OPEN_API_KEY" w) = Some k →
  let w1 := snd (llama_intro.load_api_key w) in
  environ w1 = environ w ∪ dotenv_file w
  ∧ environ w1 !! "OPEN_API_KEY" = Some k
  ∧ (∀ name v, environ w !! name = Some v → environ w1 !! name = Some v)
  ∧ fst (llama_intro.load_api_key w1) = Returned k
  ∧ environ (snd (llama_intro.load_api_key w1)) = environ w1.
Proof.
  intros Hk w1. subst w1.
  pose proof (truthy_Some_inv _ _ Hk) as [Hget _].
  unfold getenv_after_dotenv in Hget.
  rewrite (load_api_key_with_key w k Hk). cbn [snd].
  rewrite (insert_id _ _ _ Hget).
  assert (truthy (getenv_after_dotenv "OPEN_API_KEY"
            (mk_world (environ w ∪ dotenv_file w) (dotenv_file w)
               (fs_paths w) (Settings_llm w) (ext w)
               (trace w ++ [Log INFO "Successfully loaded OpenAI API key from environment." [] None])))
          = Some k) as Hk2.
  { unfold getenv_after_dotenv. cbn [environ dotenv_file].
    by rewrite union_dotenv_twice. }
  rewrite (load_api_key_with_key _ k Hk2).
  cbn [fst snd environ dotenv_file].
  rewrite union_dotenv_twice, (insert_id _ _ _ Hget).
  repeat split; try done.
  intros name v Hv. by apply lookup_union_Some_l.
Qed.

Lemma load_api_key_settles_environment_witness :
  let lib := Demo.library Demo.read_two Demo.embed_const in
  let w := @mk_world lib {[ "HOME" := "/root" ]}
                    {[ "OPEN_API_KEY" := "sk-file"; "HOME" := "/tmp" ]}
                    ∅ None 0%nat [] in
  let w1 := snd (llama_intro.load_api_key w) in
  environ w1 !! "OPEN_API_KEY" = Some "sk-file"
  ∧ environ w1 !! "HOME" = Some "/root"
  ∧ fst (llama_intro.load_api_key w1) = Returned "sk-file".
Proof.
  intros lib w w1.
  destruct (load_api_key_settles_environment (L := lib) w "sk-file")
    as (_ & Hkey & Hold & Hagain & _).
  - by vm_compute.
  - split; [exact Hkey|]. split; [|exact Hagain].
    apply Hold. by vm_compute.
Defined.

(** X2.  Where the loaders look for the key: the process environment
    first, the [.env] file only when the environment lacks the variable.
    [load_env_vars] returns whatever it finds; [load_api_key] returns it
    only when it is not empty, so that an empty variable of the process
    hides a key of the [.env] file. *)
Theorem credential_lookup_order `{L : Library} (w : World) :
  fst (test_gemini.load_env_vars w)
  = match environ w !! "GOOGLE_API_KEY" with
    | Some v => Returned v
    | None =>
        match dotenv_file w !! "GOOGLE_API_KEY" with
        | Some v => Returned v
        | None => Raised (new_exn ValueError "GOOGLE_API_KEY not found.")
        end
    end
  ∧ fst (llama_intro.load_api_key w)
    = match environ w !! "OPEN_API_KEY" with
      | Some v =>
          if bool_decide (v = "")
          then Raised (new_exn ValueError "OPEN_API_KEY is missing.")
          else Returned v
      | None =>
          match dotenv_file w !! "OPEN_API_KEY" with
          | Some v =>
              if bool_decide (v = "")
              then Raised (new_exn ValueError "OPEN_API_KEY is missing.")
              else Returned v
          | None => Raised (new_exn ValueError "OPEN_API_KEY is missing.")
          end
      end.
Proof.
  split.
  - unfold test_gemini.load_env_vars. py_unfold. py_cbn.
    rewrite lookup_union.
    destruct (environ w !! "GOOGLE_API_KEY") as [v|];
      destruct (dotenv_file w !! "GOOGLE_API_KEY") as [v'|]; reflexivity.
  - unfold llama_intro.load_api_key. py_unfold. py_cbn.
    rewrite lookup_union.
    destruct (environ w !! "OPEN_API_KEY") as [v|];
      destruct (dotenv_file w !! "OPEN_API_KEY") as [v'|]; cbn;
      repeat case_bool_decide; reflexivity.
Qed.

(** An empty [OPEN_API_KEY] of the process hides the key of [.env]. *)
Lemma empty_variable_hides_dotenv_key :
  let lib := Demo.library Demo.read_two Demo.embed_const in
  let w := @mk_world lib {[ "OPEN_API_KEY" := "" ]}
                    {[ "OPEN_API_KEY" := "sk-file" ]} ∅ None 0%nat [] in
  fst (llama_intro.load_api_key w)
  = Raised (new_exn ValueError "OPEN_API_KEY is missing.").
Proof. by vm_compute. Qed.

(** ** Further properties of [load_documents_and_index] *)

Lemma load_success_events `{L : Library} (data_dir : string) (w : World)
      (d : Document) (ds : list Document) (x' x'' : Ext) (index : Index) :
  data_dir ∈ fs_paths w →
  lib_load_data data_dir (ext w) = (Returned (d :: ds), x') →
  lib_from_documents (d :: ds) x' = (Returned index, x'') →
  events_of (llama_intro.load_documents_and_index data_dir) w
  = [ Log INFO "Loading documents from directory: %s" [AStr data_dir] None;
      Call (C_load_data data_dir);
      Log INFO "Successfully loaded %d documents." [AInt (length (d :: ds))]
          None;
      Call (C_from_documents (d :: ds));
      Log INFO "VectorStoreIndex created successfully." [] None ].
Proof.
  intros Hdir Hread Hindex. unfold events_of.
  rewrite (load_success data_dir w d ds x' x'' index Hdir Hread Hindex).
  cbn [snd trace]. by rewrite drop_app_length.
Qed.

(** X3.  Whatever happens, an error that [load_documents_and_index]
    raises is a [FileNotFoundError], a [ValueError] or a [RuntimeError],
    and the last thing logged is the record of the [except] clause of that
    class, with the message of the error; the record of the catch-all
    clause is never logged. *)
Theorem load_errors_are_of_three_classes `{L : Library}
        (data_dir : string) (w : World) :
  (∀ e, fst (llama_intro.load_documents_and_index data_dir w) = Raised e →
        (exn_cls e = FileNotFoundError ∨ exn_cls e = ValueError
         ∨ exn_cls e = RuntimeError)
        ∧ last (events_of (llama_intro.load_documents_and_index data_dir) w)
          = Some (handler_record e))
  ∧ (∀ e, unexpected_record e
          ∉ events_of (llama_intro.load_documents_and_index data_dir) w).
Proof.
  destruct (load_cases data_dir w)
    as [Hdir|e' x' Hdir Hread|x' Hdir Hread|d ds x' x'' e' Hdir Hread Hidx
        |d ds x' x'' index Hdir Hread Hidx].
  - destruct (load_missing_directory data_dir w Hdir) as [Hr Hev].
    rewrite Hr, Hev. split.
    + intros e [= <-]. split; [by left|reflexivity].
    + intros e. rewrite !elem_of_cons, elem_of_nil.
      intros [?|[?|[]]]; discriminate.
  - destruct (load_reader_failure data_dir w e' x' Hdir Hread) as [Hr Hev].
    rewrite Hr, Hev. split.
    + intros e [= <-]. split; [by right; right|reflexivity].
    + intros e. rewrite !elem_of_cons, elem_of_nil.
      intros [?|[?|[?|[?|[]]]]]; discriminate.
  - destruct (load_no_documents data_dir w x' Hdir Hread) as [Hr Hev].
    rewrite Hr, Hev. split.
    + intros e [= <-]. split; [by right; left|reflexivity].
    + intros e. rewrite !elem_of_cons, elem_of_nil.
      intros [?|[?|[?|[?|[]]]]]; discriminate.
  - destruct (load_index_failure data_dir w d ds x' x'' e' Hdir Hread Hidx)
      as [Hr Hev].
    rewrite Hr, Hev. split.
    + intros e [= <-]. split; [by right; right|reflexivity].
    + intros e. rewrite !elem_of_cons, elem_of_nil.
      intros [?|[?|[?|[?|[?|[?|[]]]]]]]; discriminate.
  - rewrite (load_success_events data_dir w d ds x' x'' index Hdir Hread Hidx).
    rewrite (load_success data_dir w d ds x' x'' index Hdir Hread Hidx).
    split; [discriminate|].
    intros e. rewrite !elem_of_cons, elem_of_nil.
    intros [?|[?|[?|[?|[?|[]]]]]]; discriminate.
Qed.

Lemma load_errors_are_of_three_classes_witness :
  let lib := Demo.library Demo.read_denied Demo.embed_const in
  let w := Demo.world lib ∅ {[ "data" ]} 0%nat in
  last (events_of (llama_intro.load_documents_and_index "data") w)
  = Some (Log ERROR "RuntimeError: %s"
              [AStr "Document loading failed: [Errno 13] Permission denied"]
              None).
Proof.
  intros lib w.
  destruct (load_errors_are_of_three_classes (L := lib) "data" w)
    as [Hraised _].
  destruct (Hraised (document_load_error
                       (new_exn PermissionError
                                "[Errno 13] Permission denied")))
    as [_ Hlast]; [reflexivity|].
  exact Hlast.
Defined.

(** ** Further properties of the stages and of [main] *)

Section Frames.
Context `{L : Library}.
Import llama_index.


End Frames.

(** Symbolic execution on the goal alone, remembering nothing. *)
Ltac py_case_goal :=
  match goal with
  | |- context [lib_OpenAI ?kw ?x] =>
      destruct (lib_OpenAI kw x) as [[?|?] ?]
  | |- context [lib_Gemini ?m ?x] =>
      destruct (lib_Gemini m x) as [[?|?] ?]
  | |- context [lib_complete ?l ?p ?x] =>
      destruct (lib_complete l p x) as [[?|?] ?]
  | |- context [lib_load_data ?d ?x] =>
      destruct (lib_load_data d x) as [[[|? ?]|?] ?]
  | |- context [lib_from_documents ?d ?x] =>
      destruct (lib_from_documents d x) as [[?|?] ?]
  | |- context [lib_embed_query ?t ?x] =>
      destruct (lib_embed_query t x) as [[?|?] ?]
  | |- context [lib_get_response_synthesizer ?m ?l ?x] =>
      destruct (lib_get_response_synthesizer m l x) as [[?|?] ?]
  | |- context [lib_synthesize ?s ?t ?n ?x] =>
      destruct (lib_synthesize s t n x) as [[?|?] ?]
  | |- context [bool_decide ?P] => destruct (bool_decide P)
  | |- context [truthy ?v] => destruct (truthy v)
  end.

Ltac py_cbn_goal :=
  cbn [fst snd environ dotenv_file fs_paths Settings_llm ext trace
       dispatch negb isinstance issubclass issubclass_fuel exn_class_eqb
       base_class exn_cls exn_str exn_cause new_exn from_cause orb].

Ltac py_run_goal := py_cbn_goal; repeat (py_case_goal; py_cbn_goal).

Ltac main_unfold :=
  unfold llama_intro.main, llama_intro.load_api_key,
    llama_intro.configure_llm, llama_intro.load_documents_and_index,
    llama_intro.setup_query_engine, llama_index.get_response_synthesizer,
    llama_intro.execute_query, llama_index.query,
    llama_index.retrieval_result, llama_index.retrieve.

(** X5.  In every run of [main] of [llama_intro.py] the collaborators
    are reached in the order of the pipeline, each at most once and none
    skipped; the arguments are the fixed ones, and the index builder is
    never given an empty list; the first record is the start record; and
    something is printed only when all six calls have been made. *)
Theorem main_calls_follow_pipeline `{L : Library} (w : World) :
  let calls := calls_of (events_of llama_intro.main w) in
  map call_rank calls = seq 0 (length calls)
  ∧ Forall expected_call calls
  ∧ head (events_of llama_intro.main w)
    = Some (Log INFO "Starting the application." [] None)
  ∧ (existsb is_print (events_of llama_intro.main w) = true →
     length calls = 6%nat).
Proof.
  intros calls. subst calls.
  remember (events_of llama_intro.main w) as evs eqn:Hevs. revert Hevs.
  unfold events_of. main_unfold. py_unfold. py_run_goal;
    rewrite <- ?app_assoc; cbn [app]; rewrite ?drop_app_length;
    intros ->;
    (split; [reflexivity|]);
    (split; [repeat constructor; done|]);
    (split; [reflexivity|]);
    cbn; first [discriminate | reflexivity].
Qed.

(** X6.  What a run of [main] of [llama_intro.py] leaves behind: the
    environment is the one [load_dotenv] makes, the [.env] file and the
    existing paths are untouched, and [Settings.llm] is the LLM that the
    [OpenAI] constructor returned when a key was found and the constructor
    returned, even if a later stage failed, and is untouched otherwise. *)
Theorem main_lasting_effects `{L : Library} (w : World) :
  let w' := snd (llama_intro.main w) in
  environ w' = environ w ∪ dotenv_file w
  ∧ dotenv_file w' = dotenv_file w
  ∧ fs_paths w' = fs_paths w
  ∧ Settings_llm w'
    = match truthy (getenv_after_dotenv "OPEN_API_KEY" w) with
      | None => Settings_llm w
      | Some _ =>
          match lib_OpenAI openai_kwargs (ext w) with
          | (Returned llm, _) => Some llm
          | (Raised _, _) => Settings_llm w
          end
      end.
Proof.
  intros w'. subst w'.
  remember (llama_intro.main w) as run eqn:Hrun. revert Hrun.
  unfold getenv_after_dotenv, openai_kwargs. main_unfold. py_unfold.
  py_cbn_goal.
  destruct (truthy ((environ w ∪ dotenv_file w) !! "OPEN_API_KEY"))
    as [k|] eqn:Hk; py_cbn_goal.
  - apply truthy_Some_inv in Hk as [Hget _].
    rewrite (insert_id _ _ _ Hget). clear Hget.
    py_run_goal; intros ->; repeat split; reflexivity.
  - intros ->. repeat split; reflexivity.
Qed.

(** ** Further properties of [test.py] *)

(** X7.  Whatever the environment holds, the first thing [test.py] does
    that can be observed is to print the value of [OPEN_API_KEY] (the
    text [None] when there is none), before the value is checked and before
    any collaborator is reached. *)
Theorem test_py_prints_the_key_first `{L : Library} (w : World) :
  ∃ evs,
    events_of test_py.script w
    = Print ("OPEN_API_KEY: "
             +:+ str_of_getenv (getenv_after_dotenv "OPEN_API_KEY" w))
      :: evs.
Proof.
  unfold events_of, getenv_after_dotenv, test_py.script. py_unfold.
  py_run_goal; rewrite <- ?app_assoc; cbn [app]; rewrite ?drop_app_length;
    eauto.
Qed.

(** X8.  With a non-empty key, [test.py] constructs [OpenAI] with the
    model [gpt-3.5-turbo] and that key, asks for one completion of the
    fixed prompt, and prints the completion.  An error of the constructor
    or of the completion reaches the interpreter as it is, unlogged; after
    an error of the constructor no completion is asked for, and after an
    error of the completion nothing more is printed. *)
Theorem test_py_with_key `{L : Library} (w : World) (k : string) :
  truthy (getenv_after_dotenv "OPEN_API_KEY" w) = Some k →
  let shown := Print ("OPEN_API_KEY: " +:+ k) in
  let built := Call (C_OpenAI (test_kwargs k)) in
  let asked := Call (C_complete test_prompt) in
  match lib_OpenAI (test_kwargs k) (ext w) with
  | (Raised e, _) =>
      fst (test_py.script w) = Raised e
      ∧ events_of test_py.script w = [shown; built]
  | (Returned llm, x1) =>
      match lib_complete llm test_prompt x1 with
      | (Raised e, _) =>
          fst (test_py.script w) = Raised e
          ∧ events_of test_py.script w = [shown; built; asked]
      | (Returned response, _) =>
          fst (test_py.script w) = Returned ()
          ∧ events_of test_py.script w
            = [shown; built; asked; Print response]
      end
  end.
Proof.
  intros Hk. pose proof (truthy_Some_inv _ _ Hk) as [Hget _].
  unfold getenv_after_dotenv in Hk, Hget.
  unfold events_of, test_py.script, test_kwargs, test_prompt. py_unfold.
  py_cbn_goal. rewrite Hk, Hget. py_cbn_goal. cbn [str_of_getenv].
  destruct (lib_OpenAI _ (ext w)) as [[llm|e] x1]; py_cbn_goal.
  - destruct (lib_complete llm _ x1) as [[response|e] x2]; py_cbn_goal;
      (split; [reflexivity|]);
      rewrite <- ?app_assoc; cbn [app]; by rewrite drop_app_length.
  - split; [reflexivity|].
    rewrite <- ?app_assoc; cbn [app]; by rewrite drop_app_length.
Qed.

Lemma test_py_with_key_witness :
  let lib := Demo.library Demo.read_two Demo.embed_const in
  let w := Demo.world lib {[ "OPEN_API_KEY" := "sk-demo" ]} ∅ 0%nat in
  fst (test_py.script w) = Returned ()
  ∧ events_of test_py.script w
    = [ Print "OPEN_API_KEY: sk-demo";
        Call (C_OpenAI (test_kwargs "sk-demo"));
        Call (C_complete test_prompt);
        Print "echo: who is bhagath singh" ].
Proof.
  intros lib w.
  exact (test_py_with_key (L := lib) w "sk-demo" eq_refl).
Defined.

(** ** Further properties of [test_gemini.py] *)

(** X9.  When [GOOGLE_API_KEY] is absent from the environment and from
    [.env], [create_llm] and [main] of [test_gemini.py] raise the
    [ValueError] of [load_env_vars] as it is; no collaborator is reached;
    and the error is logged once where it arises and once more, with its
    traceback, by each of the three functions it passes through. *)
Theorem gemini_missing_key_fails_fast `{L : Library} (w : World) :
  getenv_after_dotenv "GOOGLE_API_KEY" w = None →
  let missing := new_exn ValueError "GOOGLE_API_KEY not found." in
  fst (test_gemini.create_llm w) = Raised missing
  ∧ fst (test_gemini.main w) = Raised missing
  ∧ fst (test_gemini.script w) = Raised missing
  ∧ events_of test_gemini.main w
    = [ Log ERROR "GOOGLE_API_KEY not found in environment variables." []
            None;
        Log ERROR "Error loading environment variables." [] (Some missing);
        Log ERROR "Error creating Google Gemini model." [] (Some missing);
        Log ERROR "Error in main function." [] (Some missing) ]
  ∧ calls_of (events_of test_gemini.main w) = [].
Proof.
  intros Hkey missing. unfold getenv_after_dotenv in Hkey.
  assert (events_of test_gemini.main w
    = [ Log ERROR "GOOGLE_API_KEY not found in environment variables." []
            None;
        Log ERROR "Error loading environment variables." [] (Some missing);
        Log ERROR "Error creating Google Gemini model." [] (Some missing);
        Log ERROR "Error in main function." [] (Some missing) ]) as Hev.
  { unfold events_of, test_gemini.main, test_gemini.create_llm,
      test_gemini.load_env_vars.
    py_unfold. py_cbn_goal. rewrite Hkey. py_cbn_goal.
    rewrite <- ?app_assoc; cbn [app]. by rewrite drop_app_length. }
  split; [|split; [|split; [|split; [exact Hev|by rewrite Hev]]]].
  - unfold test_gemini.create_llm, test_gemini.load_env_vars.
    py_unfold. py_cbn_goal. by rewrite Hkey.
  - unfold test_gemini.main, test_gemini.create_llm,
      test_gemini.load_env_vars.
    py_unfold. py_cbn_goal. by rewrite Hkey.
  - unfold test_gemini.script, test_gemini.main, test_gemini.create_llm,
      test_gemini.load_env_vars.
    py_unfold. py_cbn_goal.
    assert (((environ w ∪ dotenv_file w) ∪ dotenv_file w)
              !! "GOOGLE_API_KEY" = None) as Hkey2.
    { by rewrite union_dotenv_twice. }
    by rewrite Hkey2.
Qed.

Lemma gemini_missing_key_fails_fast_witness :
  let lib := Demo.library Demo.read_two Demo.embed_const in
  let w := Demo.world lib {[ "OPEN_API_KEY" := "sk-demo" ]} {[ "data" ]}
                      0%nat in
  fst (test_gemini.main w)
  = Raised (new_exn ValueError "GOOGLE_API_KEY not found.")
  ∧ calls_of (events_of test_gemini.main w) = [].
Proof.
  intros lib w.
  destruct (gemini_missing_key_fails_fast (L := lib) w)
    as (_ & Hmain & _ & _ & Hcalls).
  - by vm_compute.
  - split; [exact Hmain|exact Hcalls].
Defined.

(** X10.  With [GOOGLE_API_KEY] set, to any value, the empty string
    included, [create_llm] calls the [Gemini] constructor once, for the
    model [models/gemini-pro], and its outcome is the constructor's: the LLM
    it returned, or the error it raised. *)
Theorem create_llm_constructs_for_any_set_key `{L : Library}
        (w : World) (k : string) :
  getenv_after_dotenv "GOOGLE_API_KEY" w = Some k →
  fst (test_gemini.create_llm w) = fst (lib_Gemini "models/gemini-pro" (ext w))
  ∧ calls_of (events_of test_gemini.create_llm w)
    = [C_Gemini "models/gemini-pro"].
Proof.
  intros Hkey. unfold getenv_after_dotenv in Hkey.
  unfold events_of, test_gemini.create_llm, test_gemini.load_env_vars.
  py_unfold. py_cbn_goal. rewrite Hkey. py_cbn_goal.
  destruct (lib_Gemini _ (ext w)) as [[llm|e] x1]; py_cbn_goal;
    (split; [reflexivity|]);
    rewrite <- ?app_assoc; cbn [app]; by rewrite drop_app_length.
Qed.

Lemma create_llm_constructs_for_any_set_key_witness :
  let lib := Demo.library Demo.read_two Demo.embed_const in
  let w := Demo.world lib {[ "GOOGLE_API_KEY" := "" ]} ∅ 0%nat in
  fst (test_gemini.create_llm w) = Returned "models/gemini-pro"
  ∧ calls_of (events_of test_gemini.create_llm w)
    = [C_Gemini "models/gemini-pro"].
Proof.
  intros lib w.
  exact (create_llm_constructs_for_any_set_key (L := lib) w "" eq_refl).
Defined.

(** X11.  [create_index] hands whatever the reader returned on to the
    index builder, an empty list included, and its outcome is the
    builder's: the index it built, or the error it raised, as it is. *)
Theorem create_index_passes_documents_on `{L : Library}
        (w : World) (documents : list Document) (x' : Ext) :
  lib_load_data "data" (ext w) = (Returned documents, x') →
  fst (test_gemini.create_index w) = fst (lib_from_documents documents x')
  ∧ calls_of (events_of test_gemini.create_index w)
    = [C_load_data "data"; C_from_documents documents].
Proof.
  intros Hread. unfold events_of, test_gemini.create_index.
  py_unfold. py_cbn_goal. rewrite Hread. py_cbn_goal.
  destruct (lib_from_documents documents x') as [[index|e] x'']; py_cbn_goal;
    (split; [reflexivity|]);
    rewrite <- ?app_assoc; cbn [app]; by rewrite drop_app_length.
Qed.

Lemma create_index_passes_documents_on_witness :
  let lib := Demo.library Demo.read_nothing Demo.embed_const in
  let w := Demo.world lib ∅ ∅ 0%nat in
  fst (test_gemini.create_index w) = Returned []
  ∧ calls_of (events_of test_gemini.create_index w)
    = [C_load_data "data"; C_from_documents []].
Proof.
  intros lib w.
  exact (create_index_passes_documents_on (L := lib) w [] 1%nat eq_refl).
Defined.

Ltac gemini_unfold :=
  unfold test_gemini.main, test_gemini.create_llm,
    test_gemini.load_env_vars, test_gemini.create_index,
    llama_index.RetrieverQueryEngine_of,
    llama_index.get_response_synthesizer, llama_index.query,
    llama_index.retrieval_result, llama_index.retrieve.

(** X12.  A run of [main] of [test_gemini.py] that raises ends with the
    record [Error in main function.] carrying the error it raises; a run
    that returns ends with the record of the query results; and nothing is
    ever printed. *)
Theorem gemini_main_logs_and_reraises `{L : Library} (w : World) :
  (∀ e, fst (test_gemini.main w) = Raised e →
        last (events_of test_gemini.main w)
        = Some (Log ERROR "Error in main function." [] (Some e)))
  ∧ (fst (test_gemini.main w) = Returned () →
     ∃ text, last (events_of test_gemini.main w)
             = Some (Log INFO ("Query results: " +:+ text) [] None))
  ∧ existsb is_print (events_of test_gemini.main w) = false.
Proof.
  remember (test_gemini.main w) as run eqn:Hrun.
  unfold events_of. rewrite <- Hrun. revert Hrun.
  gemini_unfold. py_unfold. py_cbn_goal.
  destruct ((environ w ∪ dotenv_file w) !! "GOOGLE_API_KEY");
    py_run_goal; intros ->; cbn [fst snd trace];
    rewrite <- ?app_assoc; cbn [app]; rewrite ?drop_app_length;
    (split;
     [intros ? He; first [discriminate He | injection He as <-; reflexivity]
     |]);
    (split;
     [intros He; first [discriminate He | eexists; reflexivity]|]);
    reflexivity.
Qed.

Lemma gemini_main_logs_and_reraises_witness :
  let lib := Demo.library Demo.read_denied Demo.embed_const in
  let w := Demo.world lib {[ "GOOGLE_API_KEY" := "g-demo" ]} ∅ 0%nat in
  let denied := new_exn PermissionError "[Errno 13] Permission denied" in
  last (events_of test_gemini.main w)
  = Some (Log ERROR "Error in main function." [] (Some denied)).
Proof.
  intros lib w denied.
  destruct (gemini_main_logs_and_reraises (L := lib) w) as [Hraised _].
  apply Hraised. reflexivity.
Defined.

(** X13.  In every run of [main] of [test_gemini.py] the collaborators
    are reached in the order [Gemini], reader, index builder, synthesizer
    factory, embedding, synthesis, each at most once and none skipped; and
    [Settings.llm] is left as it was: the LLM that [create_llm] returns is
    not installed. *)
Theorem gemini_main_calls_and_settings `{L : Library} (w : World) :
  let calls := calls_of (events_of test_gemini.main w) in
  map gemini_rank calls = seq 0 (length calls)
  ∧ Settings_llm (snd (test_gemini.main w)) = Settings_llm w.
Proof.
  intros calls. subst calls.
  remember (test_gemini.main w) as run eqn:Hrun.
  unfold events_of. rewrite <- Hrun. revert Hrun.
  gemini_unfold. py_unfold. py_cbn_goal.
  destruct ((environ w ∪ dotenv_file w) !! "GOOGLE_API_KEY");
    py_run_goal; intros ->; cbn [fst snd trace Settings_llm];
    rewrite <- ?app_assoc; cbn [app]; rewrite ?drop_app_length;
    (split; reflexivity).
Qed.

(** ** From the documents to the answer *)

Lemma kept_nodes_come_from_index `{L : Library}
      (qv : vector) (index : Index) (n : NodeWithScore) :
  n ∈ llama_index.apply_postprocessors
        [llama_index.SimilarityPostprocessor (8 # 10)%Q]
        (llama_index.top_k_nodes 5 qv index) →
  node n ∈ index ∧ (8 # 10 <= score n)%Q.
Proof.
  unfold llama_index.apply_postprocessors, llama_index.top_k_nodes.
  cbn [fold_left llama_index.postprocess_nodes].
  rewrite list_elem_of_In, filter_In, Qle_bool_iff, <- list_elem_of_In.
  intros [Hin Hscore]. split; [|exact Hscore].
  apply elem_of_take in Hin as (i & Hin & _).
  apply list_elem_of_lookup_2 in Hin.
  rewrite sort_desc_perm in Hin.
  unfold llama_index.score_chunks in Hin.
  apply list_elem_of_fmap in Hin as (c & -> & Hc). exact Hc.
Qed.

Lemma kept_nodes_are_at_most_five `{L : Library}
      (qv : vector) (index : Index) :
  (length (llama_index.apply_postprocessors
             [llama_index.SimilarityPostprocessor (8 # 10)%Q]
             (llama_index.top_k_nodes 5 qv index)) ≤ 5)%nat.
Proof.
  etrans; [apply length_apply_postprocessors|].
  rewrite length_top_k_nodes. lia.
Qed.

(** X14.  Retrieval as modelled from the spec.  Whenever [main] of
    [llama_intro.py] prints an answer, the reader had returned a non-empty
    list of documents for [data], the index builder had built an index from
    exactly that list, and the synthesizer was called for the sample query
    on at most five chunks, each a chunk of that index scoring at least
    0.8. *)
Theorem main_answers_from_loaded_documents `{L : Library}
        (w : World) (answer : string) :
  Print ("Query Response:" +:+ newline +:+ answer)
    ∈ events_of llama_intro.main w →
  ∃ documents index nodes x0 x1 x2,
    lib_load_data "data" x0 = (Returned documents, x1)
    ∧ documents ≠ []
    ∧ lib_from_documents documents x1 = (Returned index, x2)
    ∧ Call (C_synthesize sample_query nodes) ∈ events_of llama_intro.main w
    ∧ (length nodes ≤ 5)%nat
    ∧ (∀ n, n ∈ nodes → node n ∈ index ∧ (8 # 10 <= score n)%Q).
Proof.
  remember (events_of llama_intro.main w) as evs eqn:Hevs. revert Hevs.
  unfold events_of, sample_query. main_unfold. py_unfold. py_cbn.
  repeat (py_case; py_cbn; py_exn; py_cbn);
    rewrite <- ?app_assoc; cbn [app]; rewrite ?drop_app_length;
    intros -> Hprint;
    try (exfalso;
         repeat (apply elem_of_cons in Hprint as [Hprint|Hprint];
                 [discriminate Hprint|]);
         by apply elem_of_nil in Hprint).
  match goal with
  | Hread : lib_load_data "data" ?x0 = (Returned ?docs, ?x1),
    Hidx : lib_from_documents ?docs ?x1 = (Returned ?idx, ?x2),
    Hq : lib_embed_query _ _ = (Returned ?qv, _) |- _ =>
      exists docs, idx,
        (llama_index.apply_postprocessors
           [llama_index.SimilarityPostprocessor (8 # 10)%Q]
           (llama_index.top_k_nodes 5 qv idx)), x0, x1, x2
  end.
  split; [assumption|]. split; [discriminate|]. split; [assumption|].
  split; [|split].
  - rewrite !elem_of_cons. tauto.
  - apply kept_nodes_are_at_most_five.
  - apply kept_nodes_come_from_index.
Qed.

Lemma main_answers_from_loaded_documents_witness :
  let lib := Demo.library Demo.read_two Demo.embed_const in
  let w := Demo.world lib {[ "OPEN_API_KEY" := "sk-demo" ]} {[ "data" ]}
                      0%nat in
  ∃ nodes,
    Call (C_synthesize sample_query nodes) ∈ events_of llama_intro.main w
    ∧ ∀ n, n ∈ nodes → (8 # 10 <= score n)%Q.
Proof.
  intros lib w.
  destruct (main_answers_from_loaded_documents (L := lib) w
              "The sky is blue. The sea is deep.")
    as (documents & index & nodes & x0 & x1 & x2 & _ & _ & _ & Hcall & _
        & Hnodes).
  - apply list_elem_of_In. vm_compute. tauto.
  - exists nodes. split; [exact Hcall|]. intros n Hn. by apply Hnodes.
Defined.
